(** * The merge dialog of [app/src/ui/merge-branch/merge.tsx]

    A shallow embedding of the [Merge] React component: its props and state,
    the pure helpers ([resolveSelectedBranch], the [disabled] flag computed by
    [render]), the asynchronous methods ([onSelectionChanged],
    [updateMergeStatus], [merge]) and what the footer shows
    ([renderNewMergeInfo], [renderMergeInfo]).

    An [async] method is cut at its [await]s.  Each piece between two awaits
    runs to completion on the single JavaScript thread, so it is a function in
    a small state monad over the component; a suspended call is a [Task] that
    remembers where it waits and the locals it captured.  The environment
    (the user, git) chooses which [Event] happens next. *)

From Stdlib Require Import String NArith List Bool Lia DecimalString.
From stdpp Require Import base list.
Import ListNotations.

Local Open Scope string_scope.
Local Open Scope list_scope.

(** ** Data *)

(** A [Branch] object.  [ref] stands for the object's identity (what [===]
    and [!==] compare); two distinct objects may carry the same [name]. *)
Record Branch := mkBranch { ref : nat; name : string }.

Definition Repository := nat.

(** [a === b] for values of type [Branch | null]. *)
Definition strict_eq (a b : option Branch) : bool :=
  match a, b with
  | None, None => true
  | Some x, Some y => Nat.eqb (ref x) (ref y)
  | _, _ => false
  end.

(** Modelled from the spec: the [MergeResultStatus] union of
    [lib/app-state] (only its uses are in the source: the kinds [Loading] and
    [Clean], and the [conflictedFiles] count of the remaining kind).  The
    spec lists [Loading], [Clean], [Conflicted] and [Unknown]. *)
Inductive MergeResultStatus :=
| Loading
| Clean
| Conflicted (conflictedFiles : N)
| Unknown.

(** The result of [getAheadBehind] when it is not [null]. *)
Record IAheadBehind := mkAheadBehind { ahead : N; behind : N }.

Record IMergeProps := mkProps {
  repository : Repository;
  defaultBranch : option Branch;
  currentBranch : option Branch;
  (** [initialBranch?: Branch]: [None] is [undefined]. *)
  initialBranch : option Branch
}.

Record IMergeState := mkState {
  selectedBranch : option Branch;
  mergeStatus : option MergeResultStatus;
  (** [commitCount?: number]: [None] is [undefined]. *)
  commitCount : option N;
  filterText : string
}.

(** The object literal handed to [setState]: a field is [Some v] when the key
    is present.  [{ commitCount: undefined }] is [Some None]: the key is
    there, and merging it stores [undefined]. *)
Record Patch := mkPatch {
  p_selectedBranch : option (option Branch);
  p_mergeStatus : option (option MergeResultStatus);
  p_commitCount : option (option N);
  p_filterText : option string
}.

Definition merge_patch (p : Patch) (s : IMergeState) : IMergeState :=
  {| selectedBranch := default (selectedBranch s) (p_selectedBranch p);
     mergeStatus := default (mergeStatus s) (p_mergeStatus p);
     commitCount := default (commitCount s) (p_commitCount p);
     filterText := default (filterText s) (p_filterText p) |}.

(** ** Promises *)

Inductive Outcome (T : Type) :=
| Resolved (v : T)
| Rejected.
Arguments Resolved {T} v.
Arguments Rejected {T}.

(** An asynchronous operation seen from outside: how long it takes, in
    milliseconds, and how it settles. *)
Record Completion (T : Type) := mkCompletion {
  latency : N;
  outcome : Outcome T
}.
Arguments mkCompletion {T} _ _.
Arguments latency {T} _.
Arguments outcome {T} _.

Module MinimumTimeout.
Section Runner.
Context {T : Type}.

(** What the runner has seen so far. *)
Record Runner := mkRunner {
  operationDone : option (Outcome T);
  floorElapsed : bool
}.

Inductive Tick :=
| OperationSettled (o : Outcome T)
| TimerFired.

Definition runner_step (r : Runner) (t : Tick) : Runner :=
  match t with
  | OperationSettled o => mkRunner (Some o) (floorElapsed r)
  | TimerFired => mkRunner (operationDone r) true
  end.

(** The runner settles, with the operation's outcome, once both have
    happened. *)
Definition runner_settled (r : Runner) : option (Outcome T) :=
  if floorElapsed r then operationDone r else None.

(** The two things the runner waits for, in the order the clock delivers
    them. *)
Definition timeline (op : Completion T) (floorMillis : N) : list (N * Tick) :=
  if (latency op <? floorMillis)%N
  then [(latency op, OperationSettled (outcome op)); (floorMillis, TimerFired)]
  else [(floorMillis, TimerFired); (latency op, OperationSettled (outcome op))].

Fixpoint drive (r : Runner) (ticks : list (N * Tick)) : option (Completion T) :=
  match ticks with
  | [] => None
  | (now, t) :: rest =>
      let r' := runner_step r t in
      match runner_settled r' with
      | Some o => Some (mkCompletion now o)
      | None => drive r' rest
      end
  end.

(** Modelled from the spec: [promiseWithMinimumTimeout] of [lib/promise],
    which the source imports and calls but which is not part of it.  The spec
    (4.1): the operation starts immediately, is raced against a timer of
    [floorMillis], and the runner settles with the operation's result, or
    with its failure, only after both the operation has completed and the
    floor has elapsed.  [None] would be a runner that never settles. *)
Definition promiseWithMinimumTimeout (op : Completion T) (floorMillis : N)
  : option (Completion T) :=
  drive (mkRunner None false) (timeline op floorMillis).

End Runner.
Arguments Runner : clear implicits.
Arguments Tick : clear implicits.
End MinimumTimeout.

(** ** The component *)

(** What the component does to the outside, and every [setState] it makes,
    in order. *)
Inductive Effect :=
| SetState (p : Patch)
| MergeTree (repo : Repository) (ours theirs : Branch)
| GetAheadBehind (repo : Repository) (range : string)
| MergeBranch (repo : Repository) (branch : string)
| ClosePopup.

(** A call of [updateMergeStatus(branch)], by where it stands. *)
Inductive Task :=
| AwaitMergeTree (branch : Branch)      (* suspended at line 271 *)
| AwaitAheadBehind (branch : Branch)    (* suspended at line 280 *)
| Returned
| Threw.

Record Component := mkComponent {
  state : IMergeState;
  tasks : list Task;
  effects : list Effect
}.

Definition M (A : Type) : Type := Component -> A * Component.

Definition ret {A} (a : A) : M A := fun c => (a, c).

Definition bind {A B} (m : M A) (k : A -> M B) : M B :=
  fun c => let (a, c') := m c in k a c'.

Declare Scope comp_scope.
Delimit Scope comp_scope with comp.
Notation "x <- m ;; k" := (bind m (fun x => k))
  (at level 100, m at next level, right associativity) : comp_scope.
Notation "m ;; k" := (bind m (fun _ => k))
  (at level 100, right associativity) : comp_scope.

(** [this.setState(p)]: the patch is merged into the state.  The pieces
    below never read a field they have just set, so React's batching of
    updates inside one handler is not observable here. *)
Definition setState (p : Patch) : M unit :=
  fun c => (tt, mkComponent (merge_patch p (state c)) (tasks c)
                            (effects c ++ [SetState p])).

Definition getState : M IMergeState := fun c => (state c, c).

Definition perform (e : Effect) : M unit :=
  fun c => (tt, mkComponent (state c) (tasks c) (effects c ++ [e])).

(** A fresh call suspends: it becomes the last task. *)
Definition spawn (t : Task) : M unit :=
  fun c => (tt, mkComponent (state c) (tasks c ++ [t]) (effects c)).

(** Task [i] moves on. *)
Definition settle (i : nat) (t : Task) : M unit :=
  fun c => (tt, mkComponent (state c) (<[i:=t]> (tasks c)) (effects c)).

Definition exec {A} (m : M A) (c : Component) : Component := snd (m c).

Section Merge.

(** [enableMergeConflictDetection()] of [lib/feature-flag]. *)
Variable enableMergeConflictDetection : bool.
(** [revSymmetricDifference] of [lib/git]. *)
Variable revSymmetricDifference : string -> string -> string.
Variable props : IMergeProps.

Local Open Scope comp_scope.

(** Lines 308-316. *)
Definition resolveSelectedBranch : option Branch :=
  match initialBranch props with
  | Some b => Some b
  | None =>
      if strict_eq (currentBranch props) (defaultBranch props)
      then None
      else defaultBranch props
  end.

(** Lines 78-89. *)
Definition constructor : Component :=
  mkComponent
    {| selectedBranch := resolveSelectedBranch;
       commitCount := None;
       filterText := "";
       mergeStatus := None |}
    [] [].

(** Lines 279-280, up to the [await] of [getAheadBehind]. *)
Definition updateMergeStatus_count (branch : Branch) : M Task :=
  let range := revSymmetricDifference "" (name branch) in
  perform (GetAheadBehind (repository props) range) ;;
  ret (AwaitAheadBehind branch).

(** Lines 266-274: [updateMergeStatus] from its entry to its first
    [await]. *)
Definition updateMergeStatus (branch : Branch) : M Task :=
  setState {| p_selectedBranch := None; p_mergeStatus := Some (Some Loading);
              p_commitCount := None; p_filterText := None |} ;;
  match enableMergeConflictDetection, currentBranch props with
  | true, Some currentBranch =>
      perform (MergeTree (repository props) currentBranch branch) ;;
      ret (AwaitMergeTree branch)
  | _, _ => updateMergeStatus_count branch
  end.

(** Lines 276-280: the wrapped [mergeTree] promise resolved with
    [mergeStatus]. *)
Definition updateMergeStatus_afterMergeTree
    (branch : Branch) (mergeStatus : MergeResultStatus) : M Task :=
  setState {| p_selectedBranch := None; p_mergeStatus := Some (Some mergeStatus);
              p_commitCount := None; p_filterText := None |} ;;
  updateMergeStatus_count branch.

(** Lines 281-288: [getAheadBehind] resolved with [aheadBehind]. *)
Definition updateMergeStatus_afterAheadBehind
    (branch : Branch) (aheadBehind : option IAheadBehind) : M Task :=
  let commitCount :=
    match aheadBehind with Some ab => behind ab | None => 0%N end in
  s <- getState ;;
  (if negb (strict_eq (selectedBranch s) (Some branch))
   then setState {| p_selectedBranch := None; p_mergeStatus := None;
                    p_commitCount := Some None; p_filterText := None |}
   else setState {| p_selectedBranch := None; p_mergeStatus := None;
                    p_commitCount := Some (Some commitCount);
                    p_filterText := None |}) ;;
  ret Returned.

(** Lines 91-98. *)
Definition componentDidMount : M unit :=
  s <- getState ;;
  match selectedBranch s with
  | None => ret tt
  | Some branch => t <- updateMergeStatus branch ;; spawn t
  end.

(** Lines 100-102. *)
Definition onFilterTextChanged (filterText : string) : M unit :=
  setState {| p_selectedBranch := None; p_mergeStatus := None;
              p_commitCount := None; p_filterText := Some filterText |}.

(** Lines 104-111.  Nothing follows the [await] of line 107. *)
Definition onSelectionChanged (selectedBranch : option Branch) : M unit :=
  match selectedBranch with
  | Some branch =>
      setState {| p_selectedBranch := Some (Some branch); p_mergeStatus := None;
                  p_commitCount := None; p_filterText := None |} ;;
      t <- updateMergeStatus branch ;;
      spawn t
  | None =>
      setState {| p_selectedBranch := Some None; p_mergeStatus := Some None;
                  p_commitCount := Some (Some 0%N); p_filterText := None |}
  end.

(** Lines 291-299. *)
Definition merge : M unit :=
  s <- getState ;;
  match selectedBranch s with
  | None => ret tt
  | Some branch =>
      perform (MergeBranch (repository props) (name branch)) ;;
      perform ClosePopup
  end.

(** Lines 223-227: the [disabled] flag of the submit button. *)
Definition disabled (s : IMergeState) : bool :=
  match selectedBranch s, currentBranch props with
  | None, _ => true
  | Some _, None => true
  | Some selectedBranch, Some currentBranch =>
      String.eqb (name currentBranch) (name selectedBranch)
      || match commitCount s with Some 0%N => true | _ => false end
  end.

(** The spec's [canSubmitMerge]: the merge action can be submitted when the
    button is not disabled. *)
Definition canSubmitMerge (s : IMergeState) : bool := negb (disabled s).

(** ** Events *)

Inductive Event :=
| SelectionChanged (selectedBranch : option Branch)
| FilterTextChanged (filterText : string)
| Submit
  (** the promise awaited by task [i] at line 271 settles; [op] is how the
      [mergeTree] call it wraps went *)
| MergeTreeSettled (i : nat) (op : Completion MergeResultStatus)
  (** the promise awaited by task [i] at line 280 settles *)
| AheadBehindSettled (i : nat) (r : Outcome (option IAheadBehind)).

(** Task [i] wakes up from the [await] of line 271. *)
Definition resume_mergeTree (i : nat) (op : Completion MergeResultStatus) : M unit :=
  fun c =>
    match tasks c !! i with
    | Some (AwaitMergeTree branch) =>
        match MinimumTimeout.promiseWithMinimumTimeout op 500 with
        | Some settled =>
            match outcome settled with
            | Resolved mergeStatus =>
                (t <- updateMergeStatus_afterMergeTree branch mergeStatus ;;
                 settle i t) c
            | Rejected => settle i Threw c
            end
        | None => (tt, c)
        end
    | _ => (tt, c)
    end.

(** Task [i] wakes up from the [await] of line 280. *)
Definition resume_aheadBehind (i : nat) (r : Outcome (option IAheadBehind)) : M unit :=
  fun c =>
    match tasks c !! i with
    | Some (AwaitAheadBehind branch) =>
        match r with
        | Resolved aheadBehind =>
            (t <- updateMergeStatus_afterAheadBehind branch aheadBehind ;;
             settle i t) c
        | Rejected => settle i Threw c
        end
    | _ => (tt, c)
    end.

Definition handle (ev : Event) : M unit :=
  match ev with
  | SelectionChanged b => onSelectionChanged b
  | FilterTextChanged text => onFilterTextChanged text
  | Submit => merge
  | MergeTreeSettled i op => resume_mergeTree i op
  | AheadBehindSettled i r => resume_aheadBehind i r
  end.

Definition step (c : Component) (ev : Event) : Component := exec (handle ev) c.

(** The dialog once mounted, and after a sequence of events. *)
Definition mounted : Component := exec componentDidMount constructor.

Definition run (evs : list Event) : Component := fold_left step evs mounted.

End Merge.

Arguments resolveSelectedBranch : simpl never.

(** ** Names for what lines 281-288 compute *)

(** The count taken from the answer of [getAheadBehind] (line 281). *)
Definition behindOf (aheadBehind : option IAheadBehind) : N :=
  match aheadBehind with Some ab => behind ab | None => 0%N end.

(** The patch of lines 283-288. *)
Definition countPatch (s : IMergeState) (branch : Branch)
    (aheadBehind : option IAheadBehind) : Patch :=
  if strict_eq (selectedBranch s) (Some branch)
  then mkPatch None None (Some (Some (behindOf aheadBehind))) None
  else mkPatch None None (Some None) None.

(** ** What the log and the tasks hold *)

Definition is_mergeTree_call (e : Effect) : bool :=
  match e with MergeTree _ _ _ => true | _ => false end.

Definition awaits_mergeTree (t : Task) : bool :=
  match t with AwaitMergeTree _ => true | _ => false end.

(** A [setState] that stores a result of [mergeTree]: anything but
    [Loading] or [null] in [mergeStatus]. *)
Definition writes_merge_shape (e : Effect) : bool :=
  match e with
  | SetState p =>
      match p_mergeStatus p with
      | Some (Some Loading) | Some None | None => false
      | Some (Some _) => true
      end
  | _ => false
  end.

(** A component in which [mergeTree] has played no part. *)
Record untouched_by_mergeTree (c : Component) : Prop := mkUntouched {
  never_called : Forall (fun e => is_mergeTree_call e = false) (effects c);
  never_awaited : Forall (fun t => awaits_mergeTree t = false) (tasks c);
  never_written : Forall (fun e => writes_merge_shape e = false) (effects c);
  null_or_loading :
    mergeStatus (state c) = None \/ mergeStatus (state c) = Some Loading
}.

(** ** What [render] returns *)

(** A piece of a template literal: text written out, or [${v}] for a
    number or [undefined]. *)
Inductive Piece :=
| Lit (s : string)
| Interpolated (v : option N).

(** The React nodes built by the [render*] methods: text, the string of a
    template literal, a number child, an element with its [className] and
    children, and the [MergeStatusHeader] component of [ui/history], which
    is drawn elsewhere. *)
#[local] Unset Elimination Schemes.
Inductive Node :=
| Text (s : string)
| Template (pieces : list Piece)
| Num (n : N)
| Elem (tag : string) (className : option string) (children : list Node)
| MergeStatusHeader (status : option MergeResultStatus).
#[local] Set Elimination Schemes.

(** [mergeStatus.conflictedFiles]: reading the property from a status that
    does not carry it gives [undefined]. *)
Definition conflictedFilesOf (status : MergeResultStatus) : option N :=
  match status with Conflicted n => Some n | _ => None end.

Section Printing.

(** How the JavaScript runtime turns a number into a string
    ([Number::toString]: digits for small counts, exponent form for large
    ones).  It is not part of the source and is left open. *)
Variable numberToString : N -> string.

Definition printPiece (p : Piece) : string :=
  match p with
  | Lit s => s
  | Interpolated (Some n) => numberToString n
  | Interpolated None => "undefined"
  end.

(** The text of a node as the dialog itself writes it; what
    [MergeStatusHeader] draws is not part of it. *)
Fixpoint ownText (n : Node) : string :=
  match n with
  | Text s => s
  | Template pieces =>
      fold_right (fun p rest => (printPiece p ++ rest)%string) "" pieces
  | Num k => numberToString k
  | Elem _ _ children =>
      fold_right (fun child rest => (ownText child ++ rest)%string) "" children
  | MergeStatusHeader _ => ""
  end.

Definition infoText (info : option Node) : string :=
  match info with Some n => ownText n | None => "" end.

End Printing.

(** Lines 250-260: the footer of the dialog. *)
Record Footer := mkFooter {
  submitDisabled : bool;
  submitLabel : list Node;
  mergeInfo : option Node
}.

Section Render.
Variable enableMergeConflictDetection : bool.
Variable props : IMergeProps.

(** Lines 123-130. *)
Definition checking (s : IMergeState) : Node :=
  Elem "div" (Some "merge-status-wrapper")
    [MergeStatusHeader (mergeStatus s);
     Elem "p" (Some "merge-info")
       [Text "Checking for ability to merge automatically..."]].

(** Lines 113-177. *)
Definition renderNewMergeInfo (s : IMergeState) : option Node :=
  let commitCount := commitCount s in
  match mergeStatus s with
  | None | Some Loading => Some (checking s)
  | Some status =>
      match currentBranch props, selectedBranch s with
      | None, _ | _, None => Some (checking s)
      | Some currentBranch, Some selectedBranch =>
          match status with
          | Clean =>
              match commitCount with
              | Some n =>
                  if (0 <? n)%N then
                    let pluralized :=
                      if (n =? 1)%N then "commit" else "commits" in
                    Some (Elem "div" (Some "merge-status-wrapper")
                      [MergeStatusHeader (mergeStatus s);
                       Elem "p" (Some "merge-info")
                         [Text "This will merge";
                          Elem "strong" None
                            [Template [Lit " "; Interpolated (Some n);
                                       Lit " "; Lit pluralized]];
                          Text " "; Text "from"; Text " ";
                          Elem "strong" None [Text (name selectedBranch)];
                          Text " "; Text "into"; Text " ";
                          Elem "strong" None [Text (name currentBranch)]]])
                  else None
              | None => None
              end
          | _ =>
              let count := conflictedFilesOf status in
              let pluralized :=
                match count with Some 1%N => "file" | _ => "files" end in
              Some (Elem "div" (Some "merge-status-wrapper")
                [MergeStatusHeader (mergeStatus s);
                 Elem "p" (Some "merge-info")
                   [Text "There will be";
                    Elem "strong" None
                      [Template [Lit " "; Interpolated count;
                                 Lit " conflicted "; Lit pluralized]];
                    Text " "; Text "when merging"; Text " ";
                    Elem "strong" None [Text (name selectedBranch)];
                    Text " "; Text "into"; Text " ";
                    Elem "strong" None [Text (name currentBranch)]]])
          end
      end
  end.

(** Lines 179-213. *)
Definition renderMergeInfo (s : IMergeState) : option Node :=
  let commitCount := commitCount s in
  let selectedBranch := selectedBranch s in
  match selectedBranch, currentBranch props with
  | None, _ | _, None => None
  | Some selected, Some currentBranch =>
      if String.eqb (name currentBranch) (name selected) then None
      else
        match commitCount with
        | Some 0%N => Some (Elem "p" (Some "merge-info") [Text "Nothing to merge"])
        | _ =>
            let countPlural :=
              match commitCount with Some 1%N => "commit" | _ => "commits" end in
            let countText :=
              match commitCount with
              | None => Text "commits"
              | Some n => Elem "strong" None [Num n; Text " "; Text countPlural]
              end in
            Some (Elem "p" (Some "merge-info")
              [Text "This will bring in "; countText; Text " from ";
               Elem "strong" None
                 [Text (match selectedBranch with
                        | Some b => name b
                        | None => "HEAD"
                        end)]])
        end
  end.

(** Lines 250-260 of [render]. *)
Definition renderFooter (s : IMergeState) : Footer :=
  let currentBranch := currentBranch props in
  {| submitDisabled := disabled props s;
     submitLabel :=
       [Text "Merge into"; Text " ";
        Elem "strong" None
          [Text (match currentBranch with Some b => name b | None => "" end)]];
     mergeInfo :=
       if enableMergeConflictDetection
       then renderNewMergeInfo s
       else renderMergeInfo s |}.

End Render.

(** The paragraph of line 193. *)
Definition nothingToMerge : Node :=
  Elem "p" (Some "merge-info") [Text "Nothing to merge"].

(** ** The handlers as a relation *)

Section Transitions.
Variable flag : bool.
Variable rsd : string -> string -> string.
Variable props : IMergeProps.

(** How [updateMergeStatus branch] reaches its first [await]: the task it
    becomes and the call it has made. *)
Inductive launched (branch : Branch) : Task -> Effect -> Prop :=
| launched_mergeTree cur :
    flag = true -> currentBranch props = Some cur ->
    launched branch (AwaitMergeTree branch)
                    (MergeTree (repository props) cur branch)
| launched_count :
    flag = false \/ currentBranch props = None ->
    launched branch (AwaitAheadBehind branch)
                    (GetAheadBehind (repository props) (rsd "" (name branch))).

Inductive transition (c : Component) : Event -> Component -> Prop :=
| select_branch branch t e :
    launched branch t e ->
    transition c (SelectionChanged (Some branch))
      (mkComponent
         (mkState (Some branch) (Some Loading)
                  (commitCount (state c)) (filterText (state c)))
         (tasks c ++ [t])
         (effects c ++
            [SetState (mkPatch (Some (Some branch)) None None None);
             SetState (mkPatch None (Some (Some Loading)) None None); e]))
| select_null :
    transition c (SelectionChanged None)
      (mkComponent
         (mkState None None (Some 0%N) (filterText (state c)))
         (tasks c)
         (effects c ++
            [SetState (mkPatch (Some None) (Some None) (Some (Some 0%N)) None)]))
| filter_text text :
    transition c (FilterTextChanged text)
      (mkComponent
         (mkState (selectedBranch (state c)) (mergeStatus (state c))
                  (commitCount (state c)) text)
         (tasks c)
         (effects c ++ [SetState (mkPatch None None None (Some text))]))
| submit_nothing :
    selectedBranch (state c) = None ->
    transition c Submit c
| submit_branch branch :
    selectedBranch (state c) = Some branch ->
    transition c Submit
      (mkComponent (state c) (tasks c)
         (effects c ++
            [MergeBranch (repository props) (name branch); ClosePopup]))
| tree_resolved i op branch status :
    tasks c !! i = Some (AwaitMergeTree branch) ->
    outcome op = Resolved status ->
    transition c (MergeTreeSettled i op)
      (mkComponent
         (mkState (selectedBranch (state c)) (Some status)
                  (commitCount (state c)) (filterText (state c)))
         (<[i:=AwaitAheadBehind branch]> (tasks c))
         (effects c ++
            [SetState (mkPatch None (Some (Some status)) None None);
             GetAheadBehind (repository props) (rsd "" (name branch))]))
| tree_rejected i op branch :
    tasks c !! i = Some (AwaitMergeTree branch) ->
    outcome op = Rejected ->
    transition c (MergeTreeSettled i op)
      (mkComponent (state c) (<[i:=Threw]> (tasks c)) (effects c))
| tree_idle i op :
    (forall branch, tasks c !! i <> Some (AwaitMergeTree branch)) ->
    transition c (MergeTreeSettled i op) c
| count_resolved i branch aheadBehind :
    tasks c !! i = Some (AwaitAheadBehind branch) ->
    transition c (AheadBehindSettled i (Resolved aheadBehind))
      (mkComponent
         (mkState (selectedBranch (state c)) (mergeStatus (state c))
                  (if strict_eq (selectedBranch (state c)) (Some branch)
                   then Some (behindOf aheadBehind) else None)
                  (filterText (state c)))
         (<[i:=Returned]> (tasks c))
         (effects c ++ [SetState (countPatch (state c) branch aheadBehind)]))
| count_rejected i branch :
    tasks c !! i = Some (AwaitAheadBehind branch) ->
    transition c (AheadBehindSettled i Rejected)
      (mkComponent (state c) (<[i:=Threw]> (tasks c)) (effects c))
| count_idle i r :
    (forall branch, tasks c !! i <> Some (AwaitAheadBehind branch)) ->
    transition c (AheadBehindSettled i r) c.

End Transitions.

(** ** Reading a run *)

(** The argument of the last [onSelectionChanged], or [initial] when there
    was none. *)
Definition lastSelection (initial : option Branch) (evs : list Event)
  : option Branch :=
  fold_left (fun sel ev =>
    match ev with SelectionChanged b => b | _ => sel end) evs initial.

Definition lastFilterText (initial : string) (evs : list Event) : string :=
  fold_left (fun text ev =>
    match ev with FilterTextChanged t => t | _ => text end) evs initial.

(** How many calls of [updateMergeStatus] the events make. *)
Definition launches (evs : list Event) : nat :=
  length (List.filter (fun ev =>
    match ev with SelectionChanged (Some _) => true | _ => false end) evs).

Definition is_aheadBehind_call (e : Effect) : bool :=
  match e with GetAheadBehind _ _ => true | _ => false end.

Definition is_mergeBranch_call (e : Effect) : bool :=
  match e with MergeBranch _ _ => true | _ => false end.

Definition is_closePopup_call (e : Effect) : bool :=
  match e with ClosePopup => true | _ => false end.

Definition count_where {A} (f : A -> bool) (l : list A) : nat :=
  length (List.filter f l).

(** The branch a call of [updateMergeStatus] was made for, while it is
    suspended. *)
Definition task_branch (t : Task) : option Branch :=
  match t with
  | AwaitMergeTree b | AwaitAheadBehind b => Some b
  | Returned | Threw => None
  end.

(** How far a call has come. *)
Definition task_stage (t : Task) : nat :=
  match t with
  | AwaitMergeTree _ => 0
  | AwaitAheadBehind _ => 1
  | Returned | Threw => 2
  end.

(** Numbers kept by every handler. *)
Record accounted (flag : bool) (props : IMergeProps) (c : Component)
  : Prop := mkAccounted {
  mergeTree_calls :
    count_where is_mergeTree_call (effects c) =
      match flag, currentBranch props with
      | true, Some _ => length (tasks c)
      | _, _ => 0
      end;
  aheadBehind_calls :
    count_where is_aheadBehind_call (effects c)
      + count_where awaits_mergeTree (tasks c) <= length (tasks c);
  popup_calls :
    count_where is_mergeBranch_call (effects c) =
      count_where is_closePopup_call (effects c)
}.

(** ** A concrete dialog, for the examples *)

Module Fixture.

Definition main : Branch := mkBranch 1 "main".
Definition feature : Branch := mkBranch 2 "feature".
Definition hotfix : Branch := mkBranch 3 "hotfix".

Definition range (from to : string) : string :=
  (from ++ "..." ++ to)%string.

(** [main] is checked out and is the default branch: nothing is
    pre-selected. *)
Definition props : IMergeProps := mkProps 7 (Some main) (Some main) None.

Definition conflicts : Completion MergeResultStatus :=
  mkCompletion 100 (Resolved (Conflicted 3)).

Definition failure : Completion MergeResultStatus :=
  mkCompletion 100 Rejected.

(** How the examples print a count: its decimal digits.  JavaScript
    prints a whole number that way as long as it is below [2^53]; the
    examples use counts of one digit, and no theorem relies on [digits]. *)
Definition digits (n : N) : string := NilEmpty.string_of_uint (N.to_uint n).

(** [getAheadBehind] answers: five commits behind. *)
Definition fiveBehind : option IAheadBehind := Some (mkAheadBehind 0 5).

(** Detection off: [feature] has just been selected. *)
Definition selecting : Component :=
  run false range props [SelectionChanged (Some feature)].

(** Detection off: [feature] was selected, then the selection was
    cleared. *)
Definition deselected : Component :=
  run false range props [SelectionChanged (Some feature); SelectionChanged None].

(** Detection on: [feature] has just been selected. *)
Definition detecting : Component :=
  run true range props [SelectionChanged (Some feature)].

(** Detection on: [feature] was selected, then [hotfix]. *)
Definition racing : Component :=
  run true range props
    [SelectionChanged (Some feature); SelectionChanged (Some hotfix)].

(** Detection off: [feature] was selected, then [hotfix], and
    [getAheadBehind] has answered for [hotfix]: nothing to merge. *)
Definition settledOnHotfix : Component :=
  run false range props
    [SelectionChanged (Some feature); SelectionChanged (Some hotfix);
     AheadBehindSettled 1 (Resolved (Some (mkAheadBehind 2 0)))].

End Fixture.

(** ** The pure helpers *)

(** C8.  [resolveSelectedBranch] returns the [initialBranch] prop whenever
    it is supplied; without it, it returns [null] when [currentBranch] and
    [defaultBranch] are identical, and [defaultBranch] when they are not. *)
Theorem resolveSelectedBranch_rule (props : IMergeProps) :
  (forall b, initialBranch props = Some b ->
             resolveSelectedBranch props = Some b) /\
  (initialBranch props = None ->
   strict_eq (currentBranch props) (defaultBranch props) = true ->
   resolveSelectedBranch props = None) /\
  (initialBranch props = None ->
   strict_eq (currentBranch props) (defaultBranch props) = false ->
   resolveSelectedBranch props = defaultBranch props).
Proof.
  unfold resolveSelectedBranch.
  repeat split.
  - intros b ->. reflexivity.
  - intros -> ->. reflexivity.
  - intros -> ->. reflexivity.
Qed.

Lemma resolveSelectedBranch_rule_witness :
  resolveSelectedBranch
    (mkProps 7 (Some Fixture.main) (Some Fixture.main) (Some Fixture.main))
    = Some Fixture.main /\
  resolveSelectedBranch Fixture.props = None /\
  resolveSelectedBranch (mkProps 7 (Some Fixture.main) (Some Fixture.feature) None)
    = Some Fixture.main.
Proof.
  split; [| split].
  - apply (proj1 (resolveSelectedBranch_rule
      (mkProps 7 (Some Fixture.main) (Some Fixture.main) (Some Fixture.main)))).
    reflexivity.
  - apply (proj1 (proj2 (resolveSelectedBranch_rule Fixture.props)));
      reflexivity.
  - apply (proj2 (proj2 (resolveSelectedBranch_rule
      (mkProps 7 (Some Fixture.main) (Some Fixture.feature) None))));
      reflexivity.
Defined.

Lemma count_is_zero (count : option N) :
  match count with Some 0%N => true | _ => false end = true <-> count = Some 0%N.
Proof. destruct count as [[|p]|]; split; congruence. Qed.

Lemma disabled_true_iff (props : IMergeProps) (s : IMergeState) :
  disabled props s = true <->
    selectedBranch s = None \/
    currentBranch props = None \/
    (exists cur sel, currentBranch props = Some cur /\
                     selectedBranch s = Some sel /\ name cur = name sel) \/
    commitCount s = Some 0%N.
Proof.
  unfold disabled.
  destruct (selectedBranch s) as [sel|], (currentBranch props) as [cur|].
  - rewrite orb_true_iff, String.eqb_eq, count_is_zero. split.
    + intros [H | H]; [right; right; left; exists cur, sel; auto | auto].
    + intros [H | [H | [(c & s' & Hc & Hs & Hn) | H]]];
        [discriminate | discriminate | left; congruence | right; exact H].
  - split; auto.
  - split; auto.
  - split; auto.
Qed.

(** C6.  The merge action can be submitted unless no branch is selected, or
    no branch is checked out, or the two branches have the same name, or
    [commitCount] is [0]; a zero count and a self-merge each disable it
    whatever the other fields hold. *)
Theorem canSubmitMerge_rule (props : IMergeProps) (s : IMergeState) :
  (canSubmitMerge props s = false <->
     selectedBranch s = None \/
     currentBranch props = None \/
     (exists cur sel, currentBranch props = Some cur /\
                      selectedBranch s = Some sel /\ name cur = name sel) \/
     commitCount s = Some 0%N) /\
  (commitCount s = Some 0%N -> forall status,
     canSubmitMerge props
       (mkState (selectedBranch s) status (commitCount s) (filterText s)) = false) /\
  (forall cur sel, currentBranch props = Some cur ->
     selectedBranch s = Some sel -> name cur = name sel ->
     forall status count,
       canSubmitMerge props
         (mkState (selectedBranch s) status count (filterText s)) = false).
Proof.
  unfold canSubmitMerge.
  split; [| split].
  - rewrite negb_false_iff. apply disabled_true_iff.
  - intros Hc status. rewrite negb_false_iff.
    apply disabled_true_iff. simpl. auto.
  - intros cur sel Hcur Hsel Hn status count. rewrite negb_false_iff.
    apply disabled_true_iff. simpl.
    right. right. left. exists cur, sel. auto.
Qed.

Lemma canSubmitMerge_rule_witness :
  canSubmitMerge Fixture.props
    (mkState (Some Fixture.feature) (Some Clean) (Some 0%N) "") = false /\
  canSubmitMerge Fixture.props
    (mkState (Some (mkBranch 9 "main")) (Some Clean) (Some 4%N) "") = false.
Proof.
  split.
  - apply (proj1 (proj2 (canSubmitMerge_rule Fixture.props
      (mkState (Some Fixture.feature) None (Some 0%N) ""))) eq_refl (Some Clean)).
  - apply (proj2 (proj2 (canSubmitMerge_rule Fixture.props
      (mkState (Some (mkBranch 9 "main")) None None "")))
      Fixture.main (mkBranch 9 "main") eq_refl eq_refl eq_refl
      (Some Clean) (Some 4%N)).
Defined.

(** ** The delay-floored runner *)

Lemma runner_settles (T : Type) (op : Completion T) (floorMillis : N) :
  MinimumTimeout.promiseWithMinimumTimeout op floorMillis =
    Some (mkCompletion (N.max (latency op) floorMillis) (outcome op)).
Proof.
  unfold MinimumTimeout.promiseWithMinimumTimeout, MinimumTimeout.timeline.
  destruct (N.ltb_spec (latency op) floorMillis) as [Hlt | Hge]; simpl.
  - rewrite N.max_r by lia. reflexivity.
  - rewrite N.max_l by lia. reflexivity.
Qed.

(** C4.  The runner always settles; it does so at
    [max (latency op) floorMillis] with the outcome of the operation, be it
    a value or a failure: at the floor or later when the operation is
    faster than the floor, and exactly when the operation completes
    otherwise. *)
Theorem promiseWithMinimumTimeout_floor
    (T : Type) (op : Completion T) (floorMillis : N) :
  exists settled,
    MinimumTimeout.promiseWithMinimumTimeout op floorMillis = Some settled /\
    latency settled = N.max (latency op) floorMillis /\
    outcome settled = outcome op /\
    ((latency op < floorMillis)%N -> (floorMillis <= latency settled)%N) /\
    ((floorMillis <= latency op)%N -> latency settled = latency op).
Proof.
  exists (mkCompletion (N.max (latency op) floorMillis) (outcome op)).
  split; [apply runner_settles |]. simpl.
  repeat split; lia.
Qed.

Lemma promiseWithMinimumTimeout_floor_witness :
  exists settled,
    MinimumTimeout.promiseWithMinimumTimeout Fixture.failure 500 = Some settled /\
    latency settled = 500%N /\ outcome settled = Rejected.
Proof.
  destruct (promiseWithMinimumTimeout_floor _ Fixture.failure 500)
    as (settled & Hs & Hl & Ho & _).
  exists settled. repeat split; assumption.
Defined.

(** ** Handlers that do not wait *)

(** C7.  Selecting [null] stores [selectedBranch = null], [commitCount = 0]
    and [mergeStatus = null] at once, in one [setState]; no task is created
    or resumed and nothing but that [setState] is performed. *)
Theorem onSelectionChanged_null
    (flag : bool) (rsd : string -> string -> string) (props : IMergeProps)
    (c : Component) :
  step flag rsd props c (SelectionChanged None) =
    mkComponent
      (mkState None None (Some 0%N) (filterText (state c)))
      (tasks c)
      (effects c ++ [SetState (mkPatch (Some None) (Some None)
                                       (Some (Some 0%N)) None)]).
Proof. reflexivity. Qed.

(** C10.  [merge] without a selected branch does nothing: no call of
    [mergeBranch] or [closePopup], and the component is as before.  With a
    selected branch it calls both, whatever the current branch and
    [commitCount] are. *)
Theorem merge_without_selection
    (flag : bool) (rsd : string -> string -> string) (props : IMergeProps)
    (c : Component) :
  (selectedBranch (state c) = None ->
   step flag rsd props c Submit = c) /\
  (forall branch, selectedBranch (state c) = Some branch ->
   step flag rsd props c Submit =
     mkComponent (state c) (tasks c)
       ((effects c ++ [MergeBranch (repository props) (name branch)])
          ++ [ClosePopup])).
Proof.
  unfold step, exec, handle, merge, bind, getState.
  split.
  - intros ->. destruct c. reflexivity.
  - intros branch ->. reflexivity.
Qed.

Lemma merge_without_selection_witness :
  step true Fixture.range Fixture.props
    (mkComponent (mkState None None (Some 0%N) "") [] []) Submit
  = mkComponent (mkState None None (Some 0%N) "") [] [] /\
  step true Fixture.range Fixture.props
    (mkComponent (mkState (Some Fixture.main) None (Some 0%N) "") [] []) Submit
  = mkComponent (mkState (Some Fixture.main) None (Some 0%N) "") []
      [MergeBranch 7 "main"; ClosePopup].
Proof.
  split.
  - apply (proj1 (merge_without_selection true Fixture.range Fixture.props
      (mkComponent (mkState None None (Some 0%N) "") [] [])) eq_refl).
  - apply (proj2 (merge_without_selection true Fixture.range Fixture.props
      (mkComponent (mkState (Some Fixture.main) None (Some 0%N) "") [] []))
      Fixture.main eq_refl).
Defined.

(** ** Waking up from an [await] *)

Section Resume.
Variable flag : bool.
Variable rsd : string -> string -> string.
Variable props : IMergeProps.

Lemma resume_aheadBehind_resolved (c : Component) i branch aheadBehind :
  tasks c !! i = Some (AwaitAheadBehind branch) ->
  step flag rsd props c (AheadBehindSettled i (Resolved aheadBehind)) =
    mkComponent (merge_patch (countPatch (state c) branch aheadBehind) (state c))
                (<[i:=Returned]> (tasks c))
                (effects c ++ [SetState (countPatch (state c) branch aheadBehind)]).
Proof.
  intros Ht.
  unfold step, exec, handle, resume_aheadBehind. rewrite Ht.
  unfold updateMergeStatus_afterAheadBehind, countPatch, behindOf,
    bind, getState, settle, ret.
  destruct (strict_eq (selectedBranch (state c)) (Some branch)); reflexivity.
Qed.

Lemma resume_aheadBehind_rejected (c : Component) i branch :
  tasks c !! i = Some (AwaitAheadBehind branch) ->
  step flag rsd props c (AheadBehindSettled i Rejected) =
    mkComponent (state c) (<[i:=Threw]> (tasks c)) (effects c).
Proof.
  intros Ht. unfold step, exec, handle, resume_aheadBehind. rewrite Ht.
  reflexivity.
Qed.

Lemma resume_mergeTree_resolved (c : Component) i branch op status :
  tasks c !! i = Some (AwaitMergeTree branch) ->
  outcome op = Resolved status ->
  step flag rsd props c (MergeTreeSettled i op) =
    mkComponent
      (merge_patch (mkPatch None (Some (Some status)) None None) (state c))
      (<[i:=AwaitAheadBehind branch]> (tasks c))
      ((effects c ++ [SetState (mkPatch None (Some (Some status)) None None)])
         ++ [GetAheadBehind (repository props) (rsd "" (name branch))]).
Proof.
  intros Ht Ho.
  unfold step, exec, handle, resume_mergeTree. rewrite Ht, runner_settles.
  simpl outcome. rewrite Ho. reflexivity.
Qed.

Lemma resume_mergeTree_rejected (c : Component) i branch op :
  tasks c !! i = Some (AwaitMergeTree branch) ->
  outcome op = Rejected ->
  step flag rsd props c (MergeTreeSettled i op) =
    mkComponent (state c) (<[i:=Threw]> (tasks c)) (effects c).
Proof.
  intros Ht Ho.
  unfold step, exec, handle, resume_mergeTree. rewrite Ht, runner_settles.
  simpl outcome. rewrite Ho. reflexivity.
Qed.

(** An event that finds no task waiting for it changes nothing. *)
Lemma resume_aheadBehind_idle (c : Component) i r :
  (forall branch, tasks c !! i <> Some (AwaitAheadBehind branch)) ->
  step flag rsd props c (AheadBehindSettled i r) = c.
Proof.
  intros Ht. unfold step, exec, handle, resume_aheadBehind.
  destruct (tasks c !! i) as [[b | b | |]|]; try reflexivity.
  destruct (Ht b). reflexivity.
Qed.

Lemma resume_mergeTree_idle (c : Component) i op :
  (forall branch, tasks c !! i <> Some (AwaitMergeTree branch)) ->
  step flag rsd props c (MergeTreeSettled i op) = c.
Proof.
  intros Ht. unfold step, exec, handle, resume_mergeTree.
  destruct (tasks c !! i) as [[b | b | |]|]; try reflexivity.
  destruct (Ht b). reflexivity.
Qed.

(** Launching [updateMergeStatus] from [onSelectionChanged]. *)
Lemma onSelectionChanged_branch (c : Component) branch :
  step flag rsd props c (SelectionChanged (Some branch)) =
    let s' := mkState (Some branch) (Some Loading)
                      (commitCount (state c)) (filterText (state c)) in
    let log := ((effects c
                  ++ [SetState (mkPatch (Some (Some branch)) None None None)])
                  ++ [SetState (mkPatch None (Some (Some Loading)) None None)])%list in
    match flag, currentBranch props with
    | true, Some cur =>
        mkComponent s' (tasks c ++ [AwaitMergeTree branch])
          (log ++ [MergeTree (repository props) cur branch])
    | _, _ =>
        mkComponent s' (tasks c ++ [AwaitAheadBehind branch])
          (log ++ [GetAheadBehind (repository props) (rsd "" (name branch))])
    end.
Proof.
  unfold step, exec, handle, onSelectionChanged, updateMergeStatus, bind.
  simpl. destruct flag; [destruct (currentBranch props) |]; reflexivity.
Qed.

End Resume.

(** ** What an event may write *)

Lemma app_self_nil {A} (l new : list A) : l = l ++ new -> new = [].
Proof.
  intros H. rewrite <- (app_nil_r l) in H at 1.
  apply app_inv_head in H. congruence.
Qed.

Ltac pin_new H :=
  simpl in H; rewrite <- ?app_assoc in H;
  first [ apply app_self_nil in H | apply app_inv_head in H ];
  subst.

Section Writes.
Variable flag : bool.
Variable rsd : string -> string -> string.
Variable props : IMergeProps.

(** Every event only adds to the log. *)
Lemma step_effects_grow (c : Component) (ev : Event) :
  exists new, effects (step flag rsd props c ev) = effects c ++ new.
Proof.
  destruct ev as [[b|] | text | | i op | i r].
  - rewrite onSelectionChanged_branch.
    destruct flag; [destruct (currentBranch props) |];
      simpl; rewrite <- !app_assoc; eauto.
  - simpl. eauto.
  - simpl. eauto.
  - unfold step, exec, handle, merge, bind, getState.
    destruct (selectedBranch (state c)); simpl.
    + rewrite <- !app_assoc. eauto.
    + exists []. rewrite app_nil_r. reflexivity.
  - destruct (tasks c !! i) as [[b | b | |]|] eqn:Ht;
      try (rewrite resume_mergeTree_idle by congruence;
           exists []; rewrite app_nil_r; reflexivity).
    destruct (outcome op) as [status|] eqn:Ho.
    + rewrite (resume_mergeTree_resolved _ _ _ _ _ b op status Ht Ho).
      simpl. rewrite <- !app_assoc. eauto.
    + rewrite (resume_mergeTree_rejected _ _ _ _ _ b op Ht Ho).
      exists []. rewrite app_nil_r. reflexivity.
  - destruct (tasks c !! i) as [[b | b | |]|] eqn:Ht;
      try (rewrite resume_aheadBehind_idle by congruence;
           exists []; rewrite app_nil_r; reflexivity).
    destruct r as [ab|].
    + rewrite (resume_aheadBehind_resolved _ _ _ _ _ b ab Ht). simpl. eauto.
    + rewrite (resume_aheadBehind_rejected _ _ _ _ _ b Ht).
      exists []. rewrite app_nil_r. reflexivity.
Qed.

(** C3.  Whatever the event, a [setState] that stores a number in
    [commitCount] is either the [0] of a [null] selection or the count
    computed for a branch that is the selected branch at that moment; and
    when the branch is still selected, its count is stored. *)
Theorem commitCount_only_for_selection (c : Component) :
  (forall ev new p n,
     effects (step flag rsd props c ev) = effects c ++ new ->
     In (SetState p) new ->
     p_commitCount p = Some (Some n) ->
     (ev = SelectionChanged None /\ n = 0%N) \/
     (exists i branch aheadBehind,
        ev = AheadBehindSettled i (Resolved aheadBehind) /\
        tasks c !! i = Some (AwaitAheadBehind branch) /\
        strict_eq (selectedBranch (state c)) (Some branch) = true /\
        n = behindOf aheadBehind)) /\
  (forall i branch aheadBehind,
     tasks c !! i = Some (AwaitAheadBehind branch) ->
     strict_eq (selectedBranch (state c)) (Some branch) = true ->
     commitCount
       (state (step flag rsd props c (AheadBehindSettled i (Resolved aheadBehind))))
     = Some (behindOf aheadBehind)).
Proof.
  split.
  - intros ev new p n Heff Hin Hp.
    destruct ev as [[b|] | text | | i op | i r].
    + rewrite onSelectionChanged_branch in Heff.
      destruct flag; [destruct (currentBranch props) |];
        pin_new Heff; simpl in Hin;
        repeat (destruct Hin as [[= <-] | Hin]; try discriminate);
        destruct Hin.
    + pin_new Heff. destruct Hin as [[= <-] | []].
      injection Hp as <-. left. split; reflexivity.
    + pin_new Heff. destruct Hin as [[= <-] | []]. discriminate.
    + unfold step, exec, handle, merge, bind, getState in Heff.
      destruct (selectedBranch (state c)); pin_new Heff; simpl in Hin;
        repeat (destruct Hin as [Hin | Hin]; try discriminate);
        destruct Hin.
    + destruct (tasks c !! i) as [[b | b | |]|] eqn:Ht;
        try (rewrite resume_mergeTree_idle in Heff by congruence;
             pin_new Heff; destruct Hin).
      destruct (outcome op) as [status|] eqn:Ho.
      * rewrite (resume_mergeTree_resolved _ _ _ _ _ b op status Ht Ho) in Heff.
        pin_new Heff. simpl in Hin.
        repeat (destruct Hin as [[= <-] | Hin]; try discriminate).
        destruct Hin.
      * rewrite (resume_mergeTree_rejected _ _ _ _ _ b op Ht Ho) in Heff.
        pin_new Heff. destruct Hin.
    + destruct (tasks c !! i) as [[b | b | |]|] eqn:Ht;
        try (rewrite resume_aheadBehind_idle in Heff by congruence;
             pin_new Heff; destruct Hin).
      destruct r as [ab|].
      * rewrite (resume_aheadBehind_resolved _ _ _ _ _ b ab Ht) in Heff.
        pin_new Heff. destruct Hin as [[= <-] | []].
        unfold countPatch in Hp.
        destruct (strict_eq (selectedBranch (state c)) (Some b)) eqn:Hsel;
          simpl in Hp; [| discriminate].
        injection Hp as <-. right. exists i, b, ab. auto.
      * rewrite (resume_aheadBehind_rejected _ _ _ _ _ b Ht) in Heff.
        pin_new Heff. destruct Hin.
  - intros i branch ab Ht Hsel.
    rewrite (resume_aheadBehind_resolved _ _ _ _ _ branch ab Ht).
    unfold countPatch. rewrite Hsel. reflexivity.
Qed.

End Writes.

Lemma commitCount_only_for_selection_witness :
  commitCount
    (state (step false Fixture.range Fixture.props Fixture.selecting
              (AheadBehindSettled 0 (Resolved Fixture.fiveBehind))))
  = Some 5%N /\
  ((SelectionChanged None = SelectionChanged None /\ 0%N = 0%N) \/
   (exists i branch aheadBehind,
      SelectionChanged None = AheadBehindSettled i (Resolved aheadBehind) /\
      tasks Fixture.selecting !! i = Some (AwaitAheadBehind branch) /\
      strict_eq (selectedBranch (state Fixture.selecting)) (Some branch) = true /\
      0%N = behindOf aheadBehind)).
Proof.
  split.
  - apply (proj2 (commitCount_only_for_selection false Fixture.range
      Fixture.props Fixture.selecting) 0 Fixture.feature Fixture.fiveBehind);
      reflexivity.
  - apply (proj1 (commitCount_only_for_selection false Fixture.range
      Fixture.props Fixture.selecting) (SelectionChanged None)
      [SetState (mkPatch (Some None) (Some None) (Some (Some 0%N)) None)]
      (mkPatch (Some None) (Some None) (Some (Some 0%N)) None) 0%N).
    + reflexivity.
    + left. reflexivity.
    + reflexivity.
Defined.

(** ** Results that arrive late *)

Section Stale.
Variable flag : bool.
Variable rsd : string -> string -> string.
Variable props : IMergeProps.

(** C9, as the code has it.  When the answer of [getAheadBehind] arrives for
    a branch that is no longer selected, the count is dropped:
    [selectedBranch], [mergeStatus] and [filterText] keep their values,
    [commitCount] is set to [undefined], and nothing else is performed. *)
Theorem stale_count_discarded (c : Component) i branch aheadBehind :
  tasks c !! i = Some (AwaitAheadBehind branch) ->
  strict_eq (selectedBranch (state c)) (Some branch) = false ->
  step flag rsd props c (AheadBehindSettled i (Resolved aheadBehind)) =
    mkComponent
      (mkState (selectedBranch (state c)) (mergeStatus (state c)) None
               (filterText (state c)))
      (<[i:=Returned]> (tasks c))
      (effects c ++ [SetState (mkPatch None None (Some None) None)]).
Proof.
  intros Ht Hsel.
  rewrite (resume_aheadBehind_resolved _ _ _ _ _ branch aheadBehind Ht).
  unfold countPatch. rewrite Hsel. reflexivity.
Qed.

(** Line 276 stores the result of [mergeTree] without looking at the
    selection. *)
Lemma mergeTree_result_stored_unchecked (c : Component) i branch op status :
  tasks c !! i = Some (AwaitMergeTree branch) ->
  outcome op = Resolved status ->
  let c' := step flag rsd props c (MergeTreeSettled i op) in
  mergeStatus (state c') = Some status /\
  selectedBranch (state c') = selectedBranch (state c).
Proof.
  intros Ht Ho c'. subst c'.
  rewrite (resume_mergeTree_resolved _ _ _ _ _ branch op status Ht Ho).
  split; reflexivity.
Qed.

(** A call that has thrown stays where it is. *)
Lemma threw_forever (c : Component) (ev : Event) i :
  tasks c !! i = Some Threw ->
  tasks (step flag rsd props c ev) !! i = Some Threw.
Proof.
  intros Hi.
  assert (Hlen : i < length (tasks c)) by (eapply lookup_lt_Some; eauto).
  destruct ev as [[b|] | text | | j op | j r].
  - rewrite onSelectionChanged_branch.
    destruct flag; [destruct (currentBranch props) |]; simpl;
      rewrite lookup_app_l; assumption.
  - exact Hi.
  - exact Hi.
  - unfold step, exec, handle, merge, bind, getState.
    destruct (selectedBranch (state c)); exact Hi.
  - destruct (tasks c !! j) as [[b | b | |]|] eqn:Ht;
      try (rewrite resume_mergeTree_idle by congruence; exact Hi).
    assert (j <> i) by congruence.
    destruct (outcome op) as [status|] eqn:Ho.
    + rewrite (resume_mergeTree_resolved _ _ _ _ _ b op status Ht Ho). simpl.
      rewrite list_lookup_insert_ne; assumption.
    + rewrite (resume_mergeTree_rejected _ _ _ _ _ b op Ht Ho). simpl.
      rewrite list_lookup_insert_ne; assumption.
  - destruct (tasks c !! j) as [[b | b | |]|] eqn:Ht;
      try (rewrite resume_aheadBehind_idle by congruence; exact Hi).
    assert (j <> i) by congruence.
    destruct r as [ab|].
    + rewrite (resume_aheadBehind_resolved _ _ _ _ _ b ab Ht). simpl.
      rewrite list_lookup_insert_ne; assumption.
    + rewrite (resume_aheadBehind_rejected _ _ _ _ _ b Ht). simpl.
      rewrite list_lookup_insert_ne; assumption.
Qed.

Lemma threw_after_run (evs : list Event) : forall (c : Component) i,
  tasks c !! i = Some Threw ->
  tasks (fold_left (step flag rsd props) evs c) !! i = Some Threw.
Proof.
  induction evs as [| ev evs IH]; intros c i Hi; simpl.
  - exact Hi.
  - apply IH, threw_forever, Hi.
Qed.

(** C2, as the code has it.  When [mergeTree] fails, the [await] of line
    271 throws and [updateMergeStatus] ends there: the state and the log are
    as before (no [Unknown] is stored, [getAheadBehind] is not called), and
    whatever happens next the call never resumes. *)
Theorem mergeTree_failure_ends_evaluation (c : Component) i branch op :
  tasks c !! i = Some (AwaitMergeTree branch) ->
  outcome op = Rejected ->
  step flag rsd props c (MergeTreeSettled i op) =
    mkComponent (state c) (<[i:=Threw]> (tasks c)) (effects c) /\
  forall evs,
    tasks (fold_left (step flag rsd props) evs
             (step flag rsd props c (MergeTreeSettled i op))) !! i = Some Threw.
Proof.
  intros Ht Ho.
  rewrite (resume_mergeTree_rejected _ _ _ _ _ branch op Ht Ho).
  split; [reflexivity |].
  intros evs. apply threw_after_run. simpl.
  apply list_lookup_insert_eq. eapply lookup_lt_Some; eauto.
Qed.

End Stale.

Lemma stale_count_discarded_witness :
  step false Fixture.range Fixture.props Fixture.deselected
    (AheadBehindSettled 0 (Resolved Fixture.fiveBehind)) =
  mkComponent (mkState None None None "") [Returned]
    (effects Fixture.deselected ++ [SetState (mkPatch None None (Some None) None)]).
Proof.
  apply (stale_count_discarded false Fixture.range Fixture.props
           Fixture.deselected 0 Fixture.feature Fixture.fiveBehind);
    reflexivity.
Defined.

(** C9, as stated, fails: the late continuation for [feature] finds
    [commitCount = 0], stored when the selection was cleared, and replaces
    it by [undefined]. *)
Lemma stale_count_resets_commitCount :
  tasks Fixture.deselected !! 0 = Some (AwaitAheadBehind Fixture.feature) /\
  strict_eq (selectedBranch (state Fixture.deselected)) (Some Fixture.feature)
    = false /\
  commitCount (state Fixture.deselected) = Some 0%N /\
  commitCount
    (state (step false Fixture.range Fixture.props Fixture.deselected
              (AheadBehindSettled 0 (Resolved Fixture.fiveBehind)))) = None /\
  state (step false Fixture.range Fixture.props Fixture.deselected
           (AheadBehindSettled 0 (Resolved Fixture.fiveBehind)))
    <> state Fixture.deselected.
Proof. repeat split. discriminate. Qed.

Lemma mergeTree_failure_ends_evaluation_witness :
  step true Fixture.range Fixture.props Fixture.detecting
    (MergeTreeSettled 0 Fixture.failure) =
  mkComponent (state Fixture.detecting) [Threw] (effects Fixture.detecting) /\
  tasks (fold_left (step true Fixture.range Fixture.props)
           [AheadBehindSettled 0 (Resolved Fixture.fiveBehind)]
           (step true Fixture.range Fixture.props Fixture.detecting
              (MergeTreeSettled 0 Fixture.failure))) !! 0 = Some Threw.
Proof.
  destruct (mergeTree_failure_ends_evaluation true Fixture.range Fixture.props
              Fixture.detecting 0 Fixture.feature Fixture.failure
              eq_refl eq_refl) as [Hstep Hrun].
  split; [exact Hstep | exact (Hrun _)].
Defined.

(** C2, as stated, fails: after a failed [mergeTree] the stored status is
    still [Loading], not [Unknown]; [getAheadBehind] has not been called,
    [commitCount] is unresolved, and the call has ended. *)
Lemma mergeTree_failure_not_recovered :
  tasks Fixture.detecting = [AwaitMergeTree Fixture.feature] /\
  let c := step true Fixture.range Fixture.props Fixture.detecting
             (MergeTreeSettled 0 Fixture.failure) in
  mergeStatus (state c) = Some Loading /\
  mergeStatus (state c) <> Some Unknown /\
  commitCount (state c) = None /\
  tasks c = [Threw] /\
  effects c =
    [SetState (mkPatch (Some (Some Fixture.feature)) None None None);
     SetState (mkPatch None (Some (Some Loading)) None None);
     MergeTree 7 Fixture.main Fixture.feature].
Proof. repeat split. discriminate. Qed.

(** C1 on the code.  [feature] is selected, then [hotfix]; when the
    [mergeTree] result of [feature] arrives, line 276 stores it although
    [hotfix] is the selection. *)
Theorem late_mergeTree_result_is_stored :
  tasks Fixture.racing !! 0 = Some (AwaitMergeTree Fixture.feature) /\
  selectedBranch (state Fixture.racing) = Some Fixture.hotfix /\
  let c := step true Fixture.range Fixture.props Fixture.racing
             (MergeTreeSettled 0 Fixture.conflicts) in
  selectedBranch (state c) = Some Fixture.hotfix /\
  mergeStatus (state c) = Some (Conflicted 3) /\
  last (effects c) = Some (GetAheadBehind 7 "...feature") /\
  In (SetState (mkPatch None (Some (Some (Conflicted 3))) None None)) (effects c).
Proof.
  repeat split. vm_compute. tauto.
Qed.

(** ** Conflict detection switched off *)

(** Closes the four fields of [untouched_by_mergeTree] after a step. *)
Ltac untouched :=
  split; simpl; rewrite ?Forall_app; repeat split;
  try assumption;
  try (apply Forall_insert; [assumption | reflexivity]);
  try (repeat (apply List.Forall_cons; [reflexivity |]); apply List.Forall_nil);
  try (left; reflexivity); try (right; reflexivity).

Section Legacy.
Variable rsd : string -> string -> string.
Variable props : IMergeProps.

Lemma untouched_mounted : untouched_by_mergeTree (mounted false rsd props).
Proof.
  unfold mounted, exec, componentDidMount, constructor, bind, getState.
  simpl. destruct (resolveSelectedBranch props) as [b|]; simpl; untouched.
Qed.

Lemma untouched_step (c : Component) (ev : Event) :
  untouched_by_mergeTree c ->
  untouched_by_mergeTree (step false rsd props c ev).
Proof.
  intros [Hcall Hwait Hwrite Hstatus].
  destruct ev as [[b|] | text | | i op | i r].
  - rewrite onSelectionChanged_branch. simpl. untouched.
  - untouched.
  - untouched.
  - unfold step, exec, handle, merge, bind, getState.
    destruct (selectedBranch (state c)); simpl; untouched.
  - rewrite resume_mergeTree_idle; [untouched |].
    intros b Hb.
    pose proof (Forall_lookup_1 _ _ _ _ Hwait Hb) as Hf. discriminate.
  - destruct (tasks c !! i) as [[b | b | |]|] eqn:Ht;
      try (rewrite resume_aheadBehind_idle by congruence; untouched).
    destruct r as [ab|].
    + rewrite (resume_aheadBehind_resolved _ _ _ _ _ b ab Ht).
      unfold countPatch.
      destruct (strict_eq (selectedBranch (state c)) (Some b)); untouched.
    + rewrite (resume_aheadBehind_rejected _ _ _ _ _ b Ht). untouched.
Qed.

Lemma untouched_run (evs : list Event) : forall c,
  untouched_by_mergeTree c ->
  untouched_by_mergeTree (fold_left (step false rsd props) evs c).
Proof.
  induction evs as [| ev evs IH]; intros c Hc; simpl.
  - exact Hc.
  - apply IH, untouched_step, Hc.
Qed.

(** C5, as the code has it.  With conflict detection off, after any
    sequence of events: [mergeTree] has never been called, no call waits
    for it, no [setState] has stored a result of it, and [mergeStatus] is
    [null] or [Loading].  An evaluation stores [Loading] when it starts and
    calls [getAheadBehind] at once; when the answer comes, the one
    [setState] it makes has the key [commitCount] alone, and what it stores
    there is the [behind] count of the answer ([0] for a [null] answer) if
    the branch is still selected, and [undefined] if it is not. *)
Theorem detection_off_only_counts (evs : list Event) :
  let c := run false rsd props evs in
  untouched_by_mergeTree c /\
  (forall branch,
     let c' := step false rsd props c (SelectionChanged (Some branch)) in
     mergeStatus (state c') = Some Loading /\
     tasks c' = tasks c ++ [AwaitAheadBehind branch] /\
     effects c' =
       effects c ++
         [SetState (mkPatch (Some (Some branch)) None None None);
          SetState (mkPatch None (Some (Some Loading)) None None);
          GetAheadBehind (repository props) (rsd "" (name branch))]) /\
  (forall i branch aheadBehind,
     tasks c !! i = Some (AwaitAheadBehind branch) ->
     let c' := step false rsd props c
                 (AheadBehindSettled i (Resolved aheadBehind)) in
     let count :=
       if strict_eq (selectedBranch (state c)) (Some branch)
       then Some (behindOf aheadBehind) else None in
     mergeStatus (state c') = mergeStatus (state c) /\
     commitCount (state c') = count /\
     effects c' = effects c ++ [SetState (mkPatch None None (Some count) None)]).
Proof.
  intros c. split; [| split].
  - apply untouched_run, untouched_mounted.
  - intros branch c'. subst c'. rewrite onSelectionChanged_branch. simpl.
    rewrite <- !app_assoc. repeat split.
  - intros i branch ab Ht c' count. subst c' count.
    rewrite (resume_aheadBehind_resolved _ _ _ _ _ branch ab Ht).
    unfold countPatch.
    destruct (strict_eq (selectedBranch (state c)) (Some branch)); simpl;
      repeat split.
Qed.

End Legacy.

Lemma detection_off_only_counts_witness :
  mergeStatus
    (state (step false Fixture.range Fixture.props Fixture.selecting
              (AheadBehindSettled 0 (Resolved Fixture.fiveBehind))))
  = Some Loading /\
  commitCount
    (state (step false Fixture.range Fixture.props Fixture.selecting
              (AheadBehindSettled 0 (Resolved Fixture.fiveBehind))))
  = Some 5%N /\
  effects (step false Fixture.range Fixture.props Fixture.selecting
             (AheadBehindSettled 0 (Resolved Fixture.fiveBehind)))
  = effects Fixture.selecting
      ++ [SetState (mkPatch None None (Some (Some 5%N)) None)].
Proof.
  apply (proj2 (proj2 (detection_off_only_counts Fixture.range Fixture.props
           [SelectionChanged (Some Fixture.feature)])) 0 Fixture.feature
           Fixture.fiveBehind).
  reflexivity.
Defined.

(** C5, as stated, fails: with detection off, [mergeStatus] is [null] when
    the dialog opens and [Loading] as soon as a branch is selected. *)
Lemma detection_off_stores_loading :
  mergeStatus (state (mounted false Fixture.range Fixture.props)) = None /\
  mergeStatus
    (state (step false Fixture.range Fixture.props
              (mounted false Fixture.range Fixture.props)
              (SelectionChanged (Some Fixture.feature)))) = Some Loading /\
  mergeStatus
    (state (run false Fixture.range Fixture.props
              [SelectionChanged (Some Fixture.feature);
               AheadBehindSettled 0 (Resolved Fixture.fiveBehind)]))
    <> None.
Proof. repeat split. discriminate. Qed.

(** ** A whole evaluation *)

(** Detection on, [main] checked out, [feature] selected: [mergeTree]
    reports three conflicted files, then [getAheadBehind] reports five
    commits behind. *)
Example conflicted_preview :
  let c := run true Fixture.range Fixture.props
             [SelectionChanged (Some Fixture.feature);
              MergeTreeSettled 0 Fixture.conflicts;
              AheadBehindSettled 0 (Resolved Fixture.fiveBehind)] in
  state c = mkState (Some Fixture.feature) (Some (Conflicted 3)) (Some 5%N) "" /\
  tasks c = [Returned] /\
  canSubmitMerge Fixture.props (state c) = true.
Proof. repeat split. Qed.

(** ** The handlers satisfy the relation *)

Section Dynamics.
Variable flag : bool.
Variable rsd : string -> string -> string.
Variable props : IMergeProps.

Lemma step_transition (c : Component) (ev : Event) :
  transition flag rsd props c ev (step flag rsd props c ev).
Proof.
  destruct ev as [[b|] | text | | i op | i r].
  - rewrite onSelectionChanged_branch.
    destruct flag eqn:Hflag; [destruct (currentBranch props) as [cur|] eqn:Hcur |];
      simpl; rewrite <- !app_assoc; simpl; apply select_branch.
    + apply launched_mergeTree; [reflexivity | exact Hcur].
    + apply launched_count. right. exact Hcur.
    + apply launched_count. left. reflexivity.
  - apply select_null.
  - apply filter_text.
  - destruct (selectedBranch (state c)) as [b|] eqn:Hsel.
    + replace (step flag rsd props c Submit) with
        (mkComponent (state c) (tasks c)
           (effects c ++ [MergeBranch (repository props) (name b); ClosePopup])).
      * apply submit_branch, Hsel.
      * unfold step, exec, handle, merge, bind, getState. rewrite Hsel.
        simpl. rewrite <- app_assoc. reflexivity.
    + replace (step flag rsd props c Submit) with c.
      * apply submit_nothing, Hsel.
      * unfold step, exec, handle, merge, bind, getState. rewrite Hsel.
        reflexivity.
  - destruct (tasks c !! i) as [[b | b | |]|] eqn:Ht;
      try (rewrite resume_mergeTree_idle by congruence;
           apply tree_idle; congruence).
    destruct (outcome op) as [status|] eqn:Ho.
    + rewrite (resume_mergeTree_resolved _ _ _ _ _ b op status Ht Ho).
      rewrite <- app_assoc. apply (tree_resolved _ _ _ _ _ _ _ _ Ht Ho).
    + rewrite (resume_mergeTree_rejected _ _ _ _ _ b op Ht Ho).
      apply (tree_rejected _ _ _ _ _ _ _ Ht Ho).
  - destruct (tasks c !! i) as [[b | b | |]|] eqn:Ht;
      try (rewrite resume_aheadBehind_idle by congruence;
           apply count_idle; congruence).
    destruct r as [ab|].
    + rewrite (resume_aheadBehind_resolved _ _ _ _ _ b ab Ht).
      pose proof (count_resolved flag rsd props c i b ab Ht) as H.
      unfold countPatch in *.
      destruct (strict_eq (selectedBranch (state c)) (Some b)); exact H.
    + rewrite (resume_aheadBehind_rejected _ _ _ _ _ b Ht).
      apply (count_rejected _ _ _ _ _ _ Ht).
Qed.

End Dynamics.

(** Case analysis on what an event did. *)
Ltac by_transition flag rsd props c ev :=
  generalize (step_transition flag rsd props c ev);
  generalize (step flag rsd props c ev);
  let c' := fresh "c'" in
  let H := fresh "Htr" in
  intros c' H; destruct H.

Section Runs.
Variable flag : bool.
Variable rsd : string -> string -> string.
Variable props : IMergeProps.

Lemma step_selectedBranch (c : Component) (ev : Event) :
  selectedBranch (state (step flag rsd props c ev)) =
    match ev with
    | SelectionChanged b => b
    | _ => selectedBranch (state c)
    end.
Proof. by_transition flag rsd props c ev; try reflexivity; auto. Qed.

Lemma step_filterText (c : Component) (ev : Event) :
  filterText (state (step flag rsd props c ev)) =
    match ev with
    | FilterTextChanged text => text
    | _ => filterText (state c)
    end.
Proof. by_transition flag rsd props c ev; reflexivity. Qed.

Lemma mounted_cases :
  (resolveSelectedBranch props = None ->
   mounted flag rsd props = mkComponent (mkState None None None "") [] []) /\
  (forall branch, resolveSelectedBranch props = Some branch ->
   exists t e,
     launched flag rsd props branch t e /\
     mounted flag rsd props =
       mkComponent (mkState (Some branch) (Some Loading) None "") [t]
         [SetState (mkPatch None (Some (Some Loading)) None None); e]).
Proof.
  unfold mounted, exec, componentDidMount, constructor, bind, getState.
  simpl. split.
  - intros ->. reflexivity.
  - intros branch ->. unfold updateMergeStatus, bind. simpl.
    destruct flag eqn:Hflag;
      [destruct (currentBranch props) as [cur|] eqn:Hcur |]; simpl;
      eexists; eexists; (split; [| reflexivity]).
    + apply launched_mergeTree; [reflexivity | assumption].
    + apply launched_count. right. assumption.
    + apply launched_count. left. reflexivity.
Qed.

(** What [componentDidMount] leaves behind: nothing when no branch is
    pre-selected, and otherwise one call of [updateMergeStatus] for the
    pre-selected branch, suspended at its first [await], with [Loading]
    stored and [commitCount] still [undefined]. *)
Theorem mounted_shape :
  (resolveSelectedBranch props = None ->
   mounted flag rsd props = mkComponent (mkState None None None "") [] []) /\
  (forall branch, resolveSelectedBranch props = Some branch ->
   exists t e,
     launched flag rsd props branch t e /\
     mounted flag rsd props =
       mkComponent (mkState (Some branch) (Some Loading) None "") [t]
         [SetState (mkPatch None (Some (Some Loading)) None None); e]).
Proof. exact mounted_cases. Qed.

Lemma mounted_fields :
  selectedBranch (state (mounted flag rsd props)) = resolveSelectedBranch props /\
  filterText (state (mounted flag rsd props)) = "" /\
  commitCount (state (mounted flag rsd props)) = None /\
  length (tasks (mounted flag rsd props)) =
    match resolveSelectedBranch props with Some _ => 1 | None => 0 end.
Proof.
  destruct mounted_cases as [Hnone Hsome].
  destruct (resolveSelectedBranch props) as [b|].
  - destruct (Hsome b eq_refl) as (t & e & _ & ->). repeat split.
  - rewrite (Hnone eq_refl). repeat split.
Qed.

Lemma fold_selectedBranch (evs : list Event) : forall c,
  selectedBranch (state (fold_left (step flag rsd props) evs c)) =
    lastSelection (selectedBranch (state c)) evs.
Proof.
  induction evs as [| ev evs IH]; intros c; simpl; [reflexivity |].
  rewrite IH, step_selectedBranch. reflexivity.
Qed.

Lemma fold_filterText (evs : list Event) : forall c,
  filterText (state (fold_left (step flag rsd props) evs c)) =
    lastFilterText (filterText (state c)) evs.
Proof.
  induction evs as [| ev evs IH]; intros c; simpl; [reflexivity |].
  rewrite IH, step_filterText. reflexivity.
Qed.

(** Whatever happens in between, [selectedBranch] is what the last
    [onSelectionChanged] was given (the pre-selected branch before the
    first one), and [filterText] is what the last [onFilterTextChanged] was
    given (the empty string before the first one): no continuation of
    [updateMergeStatus] and no [merge] touches them. *)
Theorem input_fields_follow_the_user (evs : list Event) :
  selectedBranch (state (run flag rsd props evs)) =
    lastSelection (resolveSelectedBranch props) evs /\
  filterText (state (run flag rsd props evs)) = lastFilterText "" evs.
Proof.
  unfold run. rewrite fold_selectedBranch, fold_filterText.
  destruct mounted_fields as (-> & -> & _). split; reflexivity.
Qed.

End Runs.

Lemma mounted_shape_witness :
  mounted true Fixture.range Fixture.props
    = mkComponent (mkState None None None "") [] [] /\
  exists t e,
    launched false Fixture.range
      (mkProps 7 (Some Fixture.main) (Some Fixture.feature) None)
      Fixture.main t e /\
    mounted false Fixture.range
      (mkProps 7 (Some Fixture.main) (Some Fixture.feature) None)
    = mkComponent (mkState (Some Fixture.main) (Some Loading) None "") [t]
        [SetState (mkPatch None (Some (Some Loading)) None None); e].
Proof.
  split.
  - apply (proj1 (mounted_shape true Fixture.range Fixture.props)).
    reflexivity.
  - apply (proj2 (mounted_shape false Fixture.range
      (mkProps 7 (Some Fixture.main) (Some Fixture.feature) None))).
    reflexivity.
Defined.

(** ** An evaluation from start to end *)

Lemma lookup_last_task (l : list Task) (t : Task) :
  (l ++ [t]) !! length l = Some t.
Proof. induction l as [| x l IH]; simpl; [reflexivity | exact IH]. Qed.

Lemma insert_last_task (l : list Task) (t t' : Task) :
  <[length l := t']> (l ++ [t]) = l ++ [t'].
Proof.
  induction l as [| x l IH]; simpl; [reflexivity |].
  f_equal. exact IH.
Qed.

Section Evaluation.
Variable rsd : string -> string -> string.
Variable props : IMergeProps.

(** With conflict detection on and a branch checked out, selecting a branch
    and letting its evaluation run undisturbed stores the [mergeTree] result
    and the [behind] count for that branch.  The two calls are made one
    after the other: [getAheadBehind] is called only once the [mergeTree]
    promise has resolved. *)
Theorem evaluation_runs_to_completion
    (c : Component) (branch cur : Branch)
    (op : Completion MergeResultStatus) (status : MergeResultStatus)
    (aheadBehind : option IAheadBehind) :
  currentBranch props = Some cur ->
  outcome op = Resolved status ->
  fold_left (step true rsd props)
    [SelectionChanged (Some branch);
     MergeTreeSettled (length (tasks c)) op;
     AheadBehindSettled (length (tasks c)) (Resolved aheadBehind)] c =
  mkComponent
    (mkState (Some branch) (Some status) (Some (behindOf aheadBehind))
             (filterText (state c)))
    (tasks c ++ [Returned])
    (effects c ++
       [SetState (mkPatch (Some (Some branch)) None None None);
        SetState (mkPatch None (Some (Some Loading)) None None);
        MergeTree (repository props) cur branch;
        SetState (mkPatch None (Some (Some status)) None None);
        GetAheadBehind (repository props) (rsd "" (name branch));
        SetState (mkPatch None None (Some (Some (behindOf aheadBehind))) None)]).
Proof.
  intros Hcur Ho. simpl.
  rewrite onSelectionChanged_branch, Hcur. cbv zeta.
  rewrite resume_mergeTree_resolved with (branch := branch) (status := status);
    [| cbn [tasks]; apply lookup_last_task | exact Ho].
  cbn [tasks state effects]. rewrite insert_last_task.
  rewrite resume_aheadBehind_resolved with (branch := branch);
    [| cbn [tasks]; apply lookup_last_task].
  cbn [tasks state effects]. rewrite insert_last_task.
  unfold countPatch. simpl. rewrite Nat.eqb_refl. simpl.
  rewrite <- !app_assoc. reflexivity.
Qed.

(** With conflict detection off, or with no branch checked out, the same
    undisturbed evaluation calls [getAheadBehind] at once, never calls
    [mergeTree], stores the [behind] count and leaves [mergeStatus] at
    [Loading]. *)
Theorem evaluation_without_mergeTree
    (flag : bool) (c : Component) (branch : Branch)
    (aheadBehind : option IAheadBehind) :
  flag = false \/ currentBranch props = None ->
  fold_left (step flag rsd props)
    [SelectionChanged (Some branch);
     AheadBehindSettled (length (tasks c)) (Resolved aheadBehind)] c =
  mkComponent
    (mkState (Some branch) (Some Loading) (Some (behindOf aheadBehind))
             (filterText (state c)))
    (tasks c ++ [Returned])
    (effects c ++
       [SetState (mkPatch (Some (Some branch)) None None None);
        SetState (mkPatch None (Some (Some Loading)) None None);
        GetAheadBehind (repository props) (rsd "" (name branch));
        SetState (mkPatch None None (Some (Some (behindOf aheadBehind))) None)]).
Proof.
  intros Hoff. simpl.
  rewrite onSelectionChanged_branch. cbv zeta.
  assert (Hlaunch :
    match flag, currentBranch props with
    | true, Some cur =>
        mkComponent
          (mkState (Some branch) (Some Loading) (commitCount (state c))
                   (filterText (state c)))
          (tasks c ++ [AwaitMergeTree branch])
          (((effects c
               ++ [SetState (mkPatch (Some (Some branch)) None None None)])
              ++ [SetState (mkPatch None (Some (Some Loading)) None None)])
             ++ [MergeTree (repository props) cur branch])
    | _, _ =>
        mkComponent
          (mkState (Some branch) (Some Loading) (commitCount (state c))
                   (filterText (state c)))
          (tasks c ++ [AwaitAheadBehind branch])
          (((effects c
               ++ [SetState (mkPatch (Some (Some branch)) None None None)])
              ++ [SetState (mkPatch None (Some (Some Loading)) None None)])
             ++ [GetAheadBehind (repository props) (rsd "" (name branch))])
    end =
    mkComponent
      (mkState (Some branch) (Some Loading) (commitCount (state c))
               (filterText (state c)))
      (tasks c ++ [AwaitAheadBehind branch])
      (((effects c
           ++ [SetState (mkPatch (Some (Some branch)) None None None)])
          ++ [SetState (mkPatch None (Some (Some Loading)) None None)])
         ++ [GetAheadBehind (repository props) (rsd "" (name branch))])).
  { destruct Hoff as [-> | ->]; [reflexivity |].
    destruct flag; reflexivity. }
  rewrite Hlaunch.
  rewrite resume_aheadBehind_resolved with (branch := branch);
    [| cbn [tasks]; apply lookup_last_task].
  cbn [tasks state effects]. rewrite insert_last_task.
  unfold countPatch. simpl. rewrite Nat.eqb_refl. simpl.
  rewrite <- !app_assoc. reflexivity.
Qed.

End Evaluation.

Lemma evaluation_runs_to_completion_witness :
  state (run true Fixture.range Fixture.props
           [SelectionChanged (Some Fixture.feature);
            MergeTreeSettled 0 Fixture.conflicts;
            AheadBehindSettled 0 (Resolved Fixture.fiveBehind)])
  = mkState (Some Fixture.feature) (Some (Conflicted 3)) (Some 5%N) "".
Proof.
  exact (f_equal state
    (evaluation_runs_to_completion Fixture.range Fixture.props
       (mounted true Fixture.range Fixture.props) Fixture.feature Fixture.main
       Fixture.conflicts (Conflicted 3) Fixture.fiveBehind eq_refl eq_refl)).
Defined.

Lemma evaluation_without_mergeTree_witness :
  state (run false Fixture.range Fixture.props
           [SelectionChanged (Some Fixture.feature);
            AheadBehindSettled 0 (Resolved Fixture.fiveBehind)])
  = mkState (Some Fixture.feature) (Some Loading) (Some 5%N) "".
Proof.
  exact (f_equal state
    (evaluation_without_mergeTree Fixture.range Fixture.props false
       (mounted false Fixture.range Fixture.props) Fixture.feature
       Fixture.fiveBehind (or_introl eq_refl))).
Defined.

(** ** The list of calls *)

Lemma count_where_app {A} (f : A -> bool) (l l' : list A) :
  count_where f (l ++ l') = count_where f l + count_where f l'.
Proof. unfold count_where. rewrite List.filter_app, List.length_app. reflexivity. Qed.

Lemma count_where_insert {A} (f : A -> bool) (l : list A) : forall i x y,
  l !! i = Some x ->
  count_where f (<[i:=y]> l) + (if f x then 1 else 0) =
  count_where f l + (if f y then 1 else 0).
Proof.
  unfold count_where.
  induction l as [| z l IH]; intros [| i] x y Hi; simpl in *; try discriminate.
  - injection Hi as ->. destruct (f x), (f y); simpl; lia.
  - specialize (IH i x y Hi). destruct (f z); simpl; lia.
Qed.

Section Calls.
Variable flag : bool.
Variable rsd : string -> string -> string.
Variable props : IMergeProps.

Lemma step_task_progress (c : Component) (ev : Event) i t :
  tasks c !! i = Some t ->
  exists t',
    tasks (step flag rsd props c ev) !! i = Some t' /\
    task_stage t <= task_stage t' /\
    (forall b, task_branch t' = Some b -> task_branch t = Some b).
Proof.
  intros Hi.
  assert (Hlen : i < length (tasks c)) by (eapply lookup_lt_Some; eauto).
  by_transition flag rsd props c ev;
    try (exists t; repeat split; [assumption | lia | tauto]).
  - exists t. cbn [tasks]. rewrite lookup_app_l by assumption.
    repeat split; [assumption | lia | tauto].
  - cbn [tasks]. destruct (decide (i0 = i)) as [-> | Hne].
    + rewrite list_lookup_insert_eq by assumption.
      exists (AwaitAheadBehind branch).
      assert (t = AwaitMergeTree branch) as -> by congruence.
      repeat split; simpl; [lia | tauto].
    + rewrite list_lookup_insert_ne by assumption.
      exists t. repeat split; [assumption | lia | tauto].
  - cbn [tasks]. destruct (decide (i0 = i)) as [-> | Hne].
    + rewrite list_lookup_insert_eq by assumption.
      exists Threw. assert (t = AwaitMergeTree branch) as -> by congruence.
      repeat split; simpl; [lia | discriminate].
    + rewrite list_lookup_insert_ne by assumption.
      exists t. repeat split; [assumption | lia | tauto].
  - cbn [tasks]. destruct (decide (i0 = i)) as [-> | Hne].
    + rewrite list_lookup_insert_eq by assumption.
      exists Returned. assert (t = AwaitAheadBehind branch) as -> by congruence.
      repeat split; simpl; [lia | discriminate].
    + rewrite list_lookup_insert_ne by assumption.
      exists t. repeat split; [assumption | lia | tauto].
  - cbn [tasks]. destruct (decide (i0 = i)) as [-> | Hne].
    + rewrite list_lookup_insert_eq by assumption.
      exists Threw. assert (t = AwaitAheadBehind branch) as -> by congruence.
      repeat split; simpl; [lia | discriminate].
    + rewrite list_lookup_insert_ne by assumption.
      exists t. repeat split; [assumption | lia | tauto].
Qed.

(** A call of [updateMergeStatus] only moves forward, from the [await] of
    [mergeTree] to the [await] of [getAheadBehind] to its end, and as long
    as it is suspended it is for the branch it was called with: no later
    event replaces, restarts or drops it. *)
Theorem calls_only_move_forward (evs : list Event) :
  forall (c : Component) i t,
  tasks c !! i = Some t ->
  exists t',
    tasks (fold_left (step flag rsd props) evs c) !! i = Some t' /\
    task_stage t <= task_stage t' /\
    (forall b, task_branch t' = Some b -> task_branch t = Some b).
Proof.
  induction evs as [| ev evs IH]; intros c i t Hi; simpl.
  - exists t. repeat split; [assumption | lia | tauto].
  - destruct (step_task_progress c ev i t Hi) as (t1 & H1 & Hs1 & Hb1).
    destruct (IH _ i t1 H1) as (t2 & H2 & Hs2 & Hb2).
    exists t2. repeat split; [assumption | lia | auto].
Qed.

Ltac count_up :=
  cbn [tasks effects];
  rewrite ?count_where_app, ?List.length_app, ?length_insert;
  unfold count_where in *; simpl in *.

Lemma accounted_step (c : Component) (ev : Event) :
  accounted flag props c -> accounted flag props (step flag rsd props c ev).
Proof.
  intros [Htree Hcount Hpopup].
  by_transition flag rsd props c ev; try (split; assumption).
  - destruct H as [cur Hflag Hcur | Hoff].
    + split; count_up; rewrite ?Hflag, ?Hcur in *; lia.
    + assert (Hzero : match flag, currentBranch props with
                      | true, Some _ => length (tasks c ++ [AwaitAheadBehind branch])
                      | _, _ => 0
                      end = 0).
      { destruct Hoff as [-> | ->]; [reflexivity | destruct flag; reflexivity]. }
      assert (Hzero' : match flag, currentBranch props with
                       | true, Some _ => length (tasks c)
                       | _, _ => 0
                       end = 0).
      { destruct Hoff as [-> | ->]; [reflexivity | destruct flag; reflexivity]. }
      split; cbn [tasks effects]; rewrite ?Hzero; rewrite ?Hzero' in *;
        count_up; lia.
  - split; count_up; try lia;
      destruct flag, (currentBranch props); lia.
  - split; count_up; try lia;
      destruct flag, (currentBranch props); lia.
  - split; count_up; try lia;
      destruct flag, (currentBranch props); lia.
  - pose proof (count_where_insert awaits_mergeTree (tasks c) i
                  (AwaitMergeTree branch) (AwaitAheadBehind branch) H) as Hins.
    split; count_up; try lia;
      destruct flag, (currentBranch props); lia.
  - pose proof (count_where_insert awaits_mergeTree (tasks c) i
                  (AwaitMergeTree branch) Threw H) as Hins.
    split; count_up; try lia;
      destruct flag, (currentBranch props); lia.
  - pose proof (count_where_insert awaits_mergeTree (tasks c) i
                  (AwaitAheadBehind branch) Returned H) as Hins.
    split; count_up; try lia;
      destruct flag, (currentBranch props); lia.
  - pose proof (count_where_insert awaits_mergeTree (tasks c) i
                  (AwaitAheadBehind branch) Threw H) as Hins.
    split; count_up; try lia;
      destruct flag, (currentBranch props); lia.
Qed.

Lemma accounted_mounted : accounted flag props (mounted flag rsd props).
Proof.
  destruct (mounted_cases flag rsd props) as [Hnone Hsome].
  destruct (resolveSelectedBranch props) as [b|].
  - destruct (Hsome b eq_refl) as (t & e & Hl & ->).
    destruct Hl as [cur Hflag Hcur | Hoff].
    + split; count_up; rewrite ?Hflag, ?Hcur; lia.
    + split; count_up; try lia.
      destruct Hoff as [-> | ->]; [reflexivity | destruct flag; reflexivity].
  - rewrite (Hnone eq_refl). split; count_up; try lia.
    destruct flag, (currentBranch props); reflexivity.
Qed.

Lemma accounted_fold (evs : list Event) : forall c,
  accounted flag props c ->
  accounted flag props (fold_left (step flag rsd props) evs c).
Proof.
  induction evs as [| ev evs IH]; intros c Hc; simpl;
    [exact Hc | apply IH, accounted_step, Hc].
Qed.

Lemma step_tasks_length (c : Component) (ev : Event) :
  length (tasks (step flag rsd props c ev)) =
    length (tasks c) +
    match ev with SelectionChanged (Some _) => 1 | _ => 0 end.
Proof.
  by_transition flag rsd props c ev; cbn [tasks];
    rewrite ?List.length_app, ?length_insert; simpl; lia.
Qed.

Lemma fold_tasks_length (evs : list Event) : forall c,
  length (tasks (fold_left (step flag rsd props) evs c)) =
    length (tasks c) + launches evs.
Proof.
  unfold launches.
  induction evs as [| ev evs IH]; intros c; simpl; [lia |].
  rewrite IH, step_tasks_length.
  destruct ev as [[b|] | | | |]; simpl; lia.
Qed.

(** After any sequence of events: there is one call of [updateMergeStatus]
    for the pre-selected branch, if any, plus one for each selection of a
    branch; [mergeTree] has been called once for each of them when
    detection is on and a branch is checked out, and never otherwise;
    [getAheadBehind] has been called at most once for each call that is not
    still waiting for [mergeTree]. *)
Theorem one_call_per_selection (evs : list Event) :
  let c := run flag rsd props evs in
  length (tasks c) =
    match resolveSelectedBranch props with Some _ => 1 | None => 0 end
      + launches evs /\
  count_where is_mergeTree_call (effects c) =
    match flag, currentBranch props with
    | true, Some _ => length (tasks c)
    | _, _ => 0
    end /\
  count_where is_aheadBehind_call (effects c)
    + count_where awaits_mergeTree (tasks c) <= length (tasks c).
Proof.
  intros c. subst c. unfold run.
  destruct (accounted_fold evs _ accounted_mounted) as [Htree Hcount _].
  split; [| split; assumption].
  rewrite fold_tasks_length.
  destruct (mounted_fields flag rsd props) as (_ & _ & _ & ->). reflexivity.
Qed.

(** [merge] always calls [closePopup] right after [mergeBranch]: in any
    run the two have been called equally often. *)
Theorem popup_closed_once_per_merge (evs : list Event) :
  count_where is_mergeBranch_call (effects (run flag rsd props evs)) =
  count_where is_closePopup_call (effects (run flag rsd props evs)).
Proof.
  unfold run.
  destruct (accounted_fold evs _ accounted_mounted) as [_ _ Hpopup].
  exact Hpopup.
Qed.

End Calls.

(** ** With no branch checked out *)

Section Detached.
Variable flag : bool.
Variable rsd : string -> string -> string.
Variable props : IMergeProps.
Hypothesis detached : currentBranch props = None.

Lemma detached_mounted : untouched_by_mergeTree (mounted flag rsd props).
Proof.
  destruct (mounted_cases flag rsd props) as [Hnone Hsome].
  destruct (resolveSelectedBranch props) as [b|].
  - destruct (Hsome b eq_refl) as (t & e & Hl & ->).
    destruct Hl as [cur _ Hcur | _]; [congruence | untouched].
  - rewrite (Hnone eq_refl). untouched.
Qed.

Lemma detached_step (c : Component) (ev : Event) :
  untouched_by_mergeTree c ->
  untouched_by_mergeTree (step flag rsd props c ev).
Proof.
  intros [Hcall Hwait Hwrite Hstatus].
  by_transition flag rsd props c ev; try (split; assumption);
    try (pose proof (Forall_lookup_1 _ _ _ _ Hwait H) as Hf; discriminate).
  - destruct H as [cur _ Hcur | _]; [congruence | untouched].
  - untouched.
  - untouched.
  - untouched.
  - unfold countPatch.
    destruct (strict_eq (selectedBranch (state c)) (Some branch)); untouched.
  - untouched.
Qed.

Lemma detached_fold (evs : list Event) : forall c,
  untouched_by_mergeTree c ->
  untouched_by_mergeTree (fold_left (step flag rsd props) evs c).
Proof.
  induction evs as [| ev evs IH]; intros c Hc; simpl;
    [exact Hc | apply IH, detached_step, Hc].
Qed.

(** When no branch is checked out (detached HEAD), then whatever the
    feature flag and whatever happens: [mergeTree] is never called and no
    result of it is stored, the submit button stays disabled, and with
    detection on the footer shows the "Checking..." message. *)
Theorem detached_head_never_merges (evs : list Event) :
  let c := run flag rsd props evs in
  untouched_by_mergeTree c /\
  submitDisabled (renderFooter true props (state c)) = true /\
  mergeInfo (renderFooter true props (state c)) = Some (checking (state c)).
Proof.
  intros c. split; [| split].
  - apply detached_fold, detached_mounted.
  - simpl. unfold disabled. rewrite detached.
    destruct (selectedBranch (state c)); reflexivity.
  - simpl. unfold renderNewMergeInfo. rewrite detached.
    destruct (mergeStatus (state c)) as [[| | k |]|]; reflexivity.
Qed.

End Detached.

Lemma detached_head_never_merges_witness :
  let props := mkProps 7 (Some Fixture.main) None None in
  let c := run true Fixture.range props
             [SelectionChanged (Some Fixture.feature);
              MergeTreeSettled 0 Fixture.conflicts;
              AheadBehindSettled 0 (Resolved Fixture.fiveBehind)] in
  untouched_by_mergeTree c /\
  submitDisabled (renderFooter true props (state c)) = true /\
  mergeInfo (renderFooter true props (state c)) = Some (checking (state c)).
Proof.
  exact (detached_head_never_merges true Fixture.range
           (mkProps 7 (Some Fixture.main) None None) eq_refl
           [SelectionChanged (Some Fixture.feature);
            MergeTreeSettled 0 Fixture.conflicts;
            AheadBehindSettled 0 (Resolved Fixture.fiveBehind)]).
Defined.

(** ** The footer *)

Lemma append_nil_r (s : string) : (s ++ "")%string = s.
Proof. induction s as [| a s IH]; simpl; [reflexivity | rewrite IH; reflexivity]. Qed.

Lemma append_assoc (s1 s2 s3 : string) :
  ((s1 ++ s2) ++ s3)%string = (s1 ++ (s2 ++ s3))%string.
Proof.
  induction s1 as [| a s1 IH]; simpl; [reflexivity | rewrite IH; reflexivity].
Qed.

Section Footer.
Variable props : IMergeProps.

(** Without conflict detection the info line and the button agree: the
    button is disabled exactly when the line is absent or reads "Nothing to
    merge". *)
Theorem legacy_info_matches_button (s : IMergeState) :
  submitDisabled (renderFooter false props s) = true <->
    mergeInfo (renderFooter false props s) = None \/
    mergeInfo (renderFooter false props s) = Some nothingToMerge.
Proof.
  simpl. unfold disabled, renderMergeInfo, nothingToMerge.
  destruct (selectedBranch s) as [sel|], (currentBranch props) as [cur|];
    try (split; auto; fail).
  destruct (String.eqb (name cur) (name sel)); simpl;
    [split; auto |].
  destruct (commitCount s) as [[| p]|]; simpl.
  - split; auto.
  - split; [discriminate | intros [H | H]; discriminate].
  - split; [discriminate | intros [H | H]; discriminate].
Qed.

(** Without conflict detection, when the merge can be submitted the info
    line reads "This will bring in <n> commit(s) from <selected branch>",
    where <n> is the count as the runtime prints it, with "commit" for
    exactly one, and plain "commits" while the count is unknown; the "HEAD"
    fallback of line 210 is never shown. *)
Theorem legacy_info_wording
    (numberToString : N -> string) (s : IMergeState) (selected : Branch) :
  canSubmitMerge props s = true ->
  selectedBranch s = Some selected ->
  infoText numberToString (renderMergeInfo props s) =
    ("This will bring in " ++
     match commitCount s with
     | None => "commits"
     | Some n => numberToString n ++ " " ++
                 (if (n =? 1)%N then "commit" else "commits")
     end ++ " from " ++ name selected)%string.
Proof.
  unfold canSubmitMerge, disabled, renderMergeInfo.
  intros Hcan Hsel. rewrite Hsel in *.
  destruct (currentBranch props) as [cur|];
    simpl in Hcan; [| discriminate Hcan].
  destruct (String.eqb (name cur) (name selected));
    simpl in Hcan; [discriminate Hcan |].
  destruct (commitCount s) as [[| p]|];
    simpl in Hcan; [discriminate Hcan | |].
  - destruct p; simpl; rewrite ?append_nil_r, ?append_assoc; reflexivity.
  - simpl. rewrite ?append_nil_r. reflexivity.
Qed.

(** With conflict detection, the "Checking..." message is shown exactly
    when no status is stored, or the status is [Loading], or one of the two
    branches is missing. *)
Theorem checking_shown_iff (s : IMergeState) :
  renderNewMergeInfo props s = Some (checking s) <->
    mergeStatus s = None \/ mergeStatus s = Some Loading \/
    currentBranch props = None \/ selectedBranch s = None.
Proof.
  unfold renderNewMergeInfo, checking.
  destruct (mergeStatus s) as [[| | k |]|],
    (currentBranch props) as [cur|], (selectedBranch s) as [sel|];
    try (split; auto; fail);
    try (destruct (commitCount s) as [n|]; [destruct (0 <? n)%N |]);
    (split; [discriminate | intros [H | [H | [H | H]]]; discriminate]).
Qed.

(** With conflict detection, nothing at all is shown exactly when the merge
    is clean, both branches are there, and the commit count is unknown or
    zero: a merge of no commits is never announced. *)
Theorem nothing_shown_iff (s : IMergeState) :
  renderNewMergeInfo props s = None <->
    mergeStatus s = Some Clean /\
    currentBranch props <> None /\ selectedBranch s <> None /\
    (commitCount s = None \/ commitCount s = Some 0%N).
Proof.
  unfold renderNewMergeInfo.
  destruct (mergeStatus s) as [[| | k |]|];
    try (split; [discriminate | intros (H & _); discriminate]);
    destruct (currentBranch props) as [cur|], (selectedBranch s) as [sel|];
    try (split; [discriminate | intros (_ & H1 & H2 & _); congruence]);
    try (split; [discriminate | intros (H & _); discriminate]).
  destruct (commitCount s) as [[| p]|]; simpl.
  - split; [intros _; repeat split; auto; discriminate | reflexivity].
  - split; [discriminate | intros (_ & _ & _ & [H | H]); discriminate].
  - split; [intros _; repeat split; auto; discriminate | reflexivity].
Qed.

End Footer.

Lemma legacy_info_matches_button_witness :
  submitDisabled
    (renderFooter false Fixture.props (state Fixture.deselected)) = true /\
  mergeInfo
    (renderFooter false Fixture.props (state Fixture.settledOnHotfix))
    = Some nothingToMerge.
Proof.
  split.
  - apply (proj2 (legacy_info_matches_button Fixture.props
                    (state Fixture.deselected))).
    left. reflexivity.
  - destruct (proj1 (legacy_info_matches_button Fixture.props
                       (state Fixture.settledOnHotfix)) eq_refl) as [H | H].
    + discriminate H.
    + exact H.
Defined.

Lemma legacy_info_wording_witness :
  infoText Fixture.digits
    (renderMergeInfo Fixture.props
       (mkState (Some Fixture.feature) None (Some 1%N) ""))
    = "This will bring in 1 commit from feature" /\
  infoText Fixture.digits
    (renderMergeInfo Fixture.props
       (mkState (Some Fixture.feature) None None ""))
    = "This will bring in commits from feature".
Proof.
  split.
  - exact (legacy_info_wording Fixture.props Fixture.digits
             (mkState (Some Fixture.feature) None (Some 1%N) "")
             Fixture.feature eq_refl eq_refl).
  - exact (legacy_info_wording Fixture.props Fixture.digits
             (mkState (Some Fixture.feature) None None "")
             Fixture.feature eq_refl eq_refl).
Defined.

Lemma checking_shown_iff_witness :
  renderNewMergeInfo Fixture.props (state Fixture.detecting)
    = Some (checking (state Fixture.detecting)).
Proof.
  apply (proj2 (checking_shown_iff Fixture.props (state Fixture.detecting))).
  right. left. reflexivity.
Defined.

Lemma nothing_shown_iff_witness :
  renderNewMergeInfo Fixture.props
    (mkState (Some Fixture.feature) (Some Clean) (Some 0%N) "") = None.
Proof.
  apply (proj2 (nothing_shown_iff Fixture.props
                  (mkState (Some Fixture.feature) (Some Clean) (Some 0%N) ""))).
  repeat split; try discriminate. right. reflexivity.
Defined.

Lemma calls_only_move_forward_witness :
  exists t',
    tasks (fold_left (step true Fixture.range Fixture.props)
             [SelectionChanged None; MergeTreeSettled 0 Fixture.conflicts]
             Fixture.racing) !! 0 = Some t' /\
    task_stage (AwaitMergeTree Fixture.feature) <= task_stage t' /\
    (forall b, task_branch t' = Some b ->
               task_branch (AwaitMergeTree Fixture.feature) = Some b).
Proof.
  exact (calls_only_move_forward true Fixture.range Fixture.props
           [SelectionChanged None; MergeTreeSettled 0 Fixture.conflicts]
           Fixture.racing 0 (AwaitMergeTree Fixture.feature) eq_refl).
Defined.

(** ** What the user reads and can do *)

Section Wording.
Variable props : IMergeProps.

(** With conflict detection, a clean merge of [n > 0] commits is announced
    as "This will merge <n> commit(s) from <selected> into <current>",
    where <n> is the count as the runtime prints it, with "commit" for
    exactly one. *)
Theorem clean_merge_wording
    (numberToString : N -> string)
    (s : IMergeState) (selected cur : Branch) (n : N) :
  mergeStatus s = Some Clean ->
  selectedBranch s = Some selected ->
  currentBranch props = Some cur ->
  commitCount s = Some n ->
  (0 < n)%N ->
  infoText numberToString (renderNewMergeInfo props s) =
    ("This will merge " ++ numberToString n ++ " " ++
     (if (n =? 1)%N then "commit" else "commits") ++
     " from " ++ name selected ++ " into " ++ name cur)%string.
Proof.
  intros Hstatus Hsel Hcur Hcount Hpos.
  unfold renderNewMergeInfo. rewrite Hstatus, Hsel, Hcur, Hcount.
  apply N.ltb_lt in Hpos. rewrite Hpos.
  unfold infoText.
  cbn [ownText fold_right printPiece].
  rewrite ?append_nil_r, ?append_assoc. simpl.
  rewrite ?append_assoc. reflexivity.
Qed.

Lemma conflicts_text
    (numberToString : N -> string)
    (s : IMergeState) (selected cur : Branch) (k : N) :
  mergeStatus s = Some (Conflicted k) ->
  selectedBranch s = Some selected ->
  currentBranch props = Some cur ->
  infoText numberToString (renderNewMergeInfo props s) =
    ("There will be " ++ numberToString k ++ " conflicted " ++
     (if (k =? 1)%N then "file" else "files") ++
     " when merging " ++ name selected ++ " into " ++ name cur)%string.
Proof.
  intros Hstatus Hsel Hcur.
  unfold renderNewMergeInfo. rewrite Hstatus, Hsel, Hcur.
  unfold infoText, conflictedFilesOf.
  replace (match Some k with Some 1%N => "file" | _ => "files" end)
    with (if (k =? 1)%N then "file" else "files")
    by (destruct k as [| [p | p |]]; reflexivity).
  cbn [ownText fold_right printPiece].
  rewrite ?append_nil_r, ?append_assoc. simpl.
  rewrite ?append_assoc. reflexivity.
Qed.

(** With conflict detection, a merge with [k] conflicted files is announced
    as "There will be <k> conflicted file(s) when merging <selected> into
    <current>", where <k> is the count as the runtime prints it, with
    "file" for exactly one, whatever [commitCount] is. *)
Theorem conflicts_wording
    (numberToString : N -> string)
    (s : IMergeState) (selected cur : Branch) (k : N) :
  mergeStatus s = Some (Conflicted k) ->
  selectedBranch s = Some selected ->
  currentBranch props = Some cur ->
  infoText numberToString (renderNewMergeInfo props s) =
    ("There will be " ++ numberToString k ++ " conflicted " ++
     (if (k =? 1)%N then "file" else "files") ++
     " when merging " ++ name selected ++ " into " ++ name cur)%string.
Proof. apply conflicts_text. Qed.

(** When the submit button is enabled, [merge] does merge: a branch is
    selected, its name differs from the checked-out branch, and submitting
    calls [mergeBranch] with that name and then [closePopup], leaving the
    state as it is. *)
Theorem enabled_button_merges
    (flag : bool) (rsd : string -> string -> string) (c : Component) :
  canSubmitMerge props (state c) = true ->
  exists selected cur,
    selectedBranch (state c) = Some selected /\
    currentBranch props = Some cur /\
    name cur <> name selected /\
    step flag rsd props c Submit =
      mkComponent (state c) (tasks c)
        (effects c ++
           [MergeBranch (repository props) (name selected); ClosePopup]).
Proof.
  unfold canSubmitMerge, disabled. intros Hcan.
  destruct (selectedBranch (state c)) as [sel|] eqn:Hsel;
    [| discriminate Hcan].
  destruct (currentBranch props) as [cur|] eqn:Hcur; [| discriminate Hcan].
  exists sel, cur. repeat split.
  - intros Hname. apply String.eqb_eq in Hname. rewrite Hname in Hcan.
    discriminate Hcan.
  - unfold step, exec, handle, merge, bind, getState. rewrite Hsel.
    simpl. rewrite <- app_assoc. reflexivity.
Qed.

(** The conflict message names the branch that is selected when it is
    drawn: when a [mergeTree] result arrives, the message read right after
    is about the selected branch, for whichever branch the result was
    computed. *)
Theorem conflict_message_names_selection
    (numberToString : N -> string)
    (flag : bool) (rsd : string -> string -> string) (c : Component)
    i (branch selected cur : Branch)
    (op : Completion MergeResultStatus) (k : N) :
  tasks c !! i = Some (AwaitMergeTree branch) ->
  outcome op = Resolved (Conflicted k) ->
  selectedBranch (state c) = Some selected ->
  currentBranch props = Some cur ->
  infoText numberToString
    (renderNewMergeInfo props
       (state (step flag rsd props c (MergeTreeSettled i op)))) =
    ("There will be " ++ numberToString k ++ " conflicted " ++
     (if (k =? 1)%N then "file" else "files") ++
     " when merging " ++ name selected ++ " into " ++ name cur)%string.
Proof.
  intros Ht Ho Hsel Hcur.
  rewrite (resume_mergeTree_resolved _ _ _ _ _ branch op (Conflicted k) Ht Ho).
  apply conflicts_text; simpl; first [reflexivity | assumption].
Qed.

End Wording.

Lemma clean_merge_wording_witness :
  infoText Fixture.digits
    (renderNewMergeInfo Fixture.props
       (mkState (Some Fixture.feature) (Some Clean) (Some 1%N) ""))
    = "This will merge 1 commit from feature into main".
Proof.
  exact (clean_merge_wording Fixture.props Fixture.digits
           (mkState (Some Fixture.feature) (Some Clean) (Some 1%N) "")
           Fixture.feature Fixture.main 1 eq_refl eq_refl eq_refl eq_refl
           eq_refl).
Defined.

Lemma conflicts_wording_witness :
  infoText Fixture.digits
    (renderNewMergeInfo Fixture.props
       (mkState (Some Fixture.feature) (Some (Conflicted 3)) None ""))
    = "There will be 3 conflicted files when merging feature into main".
Proof.
  exact (conflicts_wording Fixture.props Fixture.digits
           (mkState (Some Fixture.feature) (Some (Conflicted 3)) None "")
           Fixture.feature Fixture.main 3 eq_refl eq_refl eq_refl).
Defined.

Lemma enabled_button_merges_witness :
  exists selected cur,
    selectedBranch (state Fixture.selecting) = Some selected /\
    currentBranch Fixture.props = Some cur /\
    name cur <> name selected /\
    step false Fixture.range Fixture.props Fixture.selecting Submit =
      mkComponent (state Fixture.selecting) (tasks Fixture.selecting)
        (effects Fixture.selecting ++
           [MergeBranch (repository Fixture.props) (name selected); ClosePopup]).
Proof.
  exact (enabled_button_merges Fixture.props false Fixture.range
           Fixture.selecting eq_refl).
Defined.

Lemma conflict_message_names_selection_witness :
  infoText Fixture.digits
    (renderNewMergeInfo Fixture.props
       (state (step true Fixture.range Fixture.props Fixture.racing
                 (MergeTreeSettled 0 Fixture.conflicts))))
    = "There will be 3 conflicted files when merging hotfix into main".
Proof.
  exact (conflict_message_names_selection Fixture.props Fixture.digits
           true Fixture.range
           Fixture.racing 0 Fixture.feature Fixture.hotfix Fixture.main
           Fixture.conflicts 3 eq_refl eq_refl eq_refl eq_refl).
Defined.

(** ** The count between two answers *)

Section Between.
Variable flag : bool.
Variable rsd : string -> string -> string.
Variable props : IMergeProps.

(** [commitCount] changes only when the selection is cleared or an answer
    of [getAheadBehind] arrives. *)
Lemma step_commitCount_kept (c : Component) (ev : Event) :
  ev <> SelectionChanged None ->
  (forall i aheadBehind, ev <> AheadBehindSettled i (Resolved aheadBehind)) ->
  commitCount (state (step flag rsd props c ev)) = commitCount (state c).
Proof.
  intros Hnull Hcount.
  by_transition flag rsd props c ev; try reflexivity.
  - destruct Hnull. reflexivity.
  - destruct (Hcount i aheadBehind). reflexivity.
Qed.

(** Selecting a branch does not reset [commitCount]: until
    [getAheadBehind] answers for it, the footer of the legacy dialog
    announces the count of the previous selection, as the runtime prints
    it, under the name of the new branch, and the button is enabled on that
    count. *)
Theorem previous_count_shown_for_new_selection
    (numberToString : N -> string)
    (c : Component) (branch cur : Branch) (n : N) :
  commitCount (state c) = Some n ->
  n <> 0%N ->
  currentBranch props = Some cur ->
  name cur <> name branch ->
  let s := state (step flag rsd props c (SelectionChanged (Some branch))) in
  commitCount s = Some n /\
  submitDisabled (renderFooter false props s) = false /\
  infoText numberToString (mergeInfo (renderFooter false props s)) =
    ("This will bring in " ++ numberToString n ++ " " ++
     (if (n =? 1)%N then "commit" else "commits") ++
     " from " ++ name branch)%string.
Proof.
  intros Hcount Hn Hcur Hname s.
  assert (Hkept : commitCount s = Some n).
  { subst s. rewrite step_commitCount_kept; [exact Hcount | discriminate |].
    intros i ab. discriminate. }
  assert (Hsel : selectedBranch s = Some branch).
  { subst s. apply step_selectedBranch. }
  apply String.eqb_neq in Hname.
  split; [exact Hkept |].
  cbn [renderFooter submitDisabled mergeInfo].
  unfold disabled, renderMergeInfo. rewrite Hsel, Hcur, Hname, Hkept.
  destruct n as [| p]; [congruence |]. split; [reflexivity |].
  destruct p; simpl; rewrite ?append_nil_r, ?append_assoc; reflexivity.
Qed.

(** A late answer of [getAheadBehind] re-enables the button: when it
    arrives for a branch that is no longer selected, [commitCount] becomes
    [undefined], so with two branches of different names the merge can be
    submitted, even if the count stored for the selection was [0]. *)
Theorem late_count_enables_merge
    (c : Component) i (branch selected cur : Branch)
    (aheadBehind : option IAheadBehind) :
  tasks c !! i = Some (AwaitAheadBehind branch) ->
  selectedBranch (state c) = Some selected ->
  ref selected <> ref branch ->
  currentBranch props = Some cur ->
  name cur <> name selected ->
  canSubmitMerge props
    (state (step flag rsd props c
              (AheadBehindSettled i (Resolved aheadBehind)))) = true.
Proof.
  intros Ht Hsel Href Hcur Hname.
  rewrite (resume_aheadBehind_resolved _ _ _ _ _ branch aheadBehind Ht).
  unfold countPatch. rewrite Hsel. simpl strict_eq.
  apply Nat.eqb_neq in Href. rewrite Href.
  unfold canSubmitMerge, disabled. simpl. rewrite Hsel, Hcur.
  apply String.eqb_neq in Hname. rewrite Hname. reflexivity.
Qed.

End Between.

Lemma previous_count_shown_for_new_selection_witness :
  let c := run false Fixture.range Fixture.props
             [SelectionChanged (Some Fixture.feature);
              AheadBehindSettled 0 (Resolved Fixture.fiveBehind)] in
  let s := state (step false Fixture.range Fixture.props c
                    (SelectionChanged (Some Fixture.hotfix))) in
  commitCount s = Some 5%N /\
  submitDisabled (renderFooter false Fixture.props s) = false /\
  infoText Fixture.digits (mergeInfo (renderFooter false Fixture.props s)) =
    "This will bring in 5 commits from hotfix".
Proof.
  apply (previous_count_shown_for_new_selection false Fixture.range
           Fixture.props Fixture.digits
           (run false Fixture.range Fixture.props
              [SelectionChanged (Some Fixture.feature);
               AheadBehindSettled 0 (Resolved Fixture.fiveBehind)])
           Fixture.hotfix Fixture.main 5).
  - reflexivity.
  - discriminate.
  - reflexivity.
  - discriminate.
Defined.

Lemma late_count_enables_merge_witness :
  canSubmitMerge Fixture.props (state Fixture.settledOnHotfix) = false /\
  canSubmitMerge Fixture.props
    (state (step false Fixture.range Fixture.props Fixture.settledOnHotfix
              (AheadBehindSettled 0 (Resolved Fixture.fiveBehind)))) = true.
Proof.
  split; [reflexivity |].
  apply (late_count_enables_merge false Fixture.range Fixture.props
           Fixture.settledOnHotfix 0 Fixture.feature Fixture.hotfix
           Fixture.main Fixture.fiveBehind).
  - reflexivity.
  - reflexivity.
  - discriminate.
  - reflexivity.
  - discriminate.
Defined.
